(** * The authentication layer of ee-app: token store, HTTP client, auth service

    A shallow embedding of [lib/api-client.ts] (the Directus revision, with
    the token store on [localStorage]) and [lib/auth.ts].

    The program is asynchronous but strictly sequential: every promise is
    awaited before the next statement runs.  It is modelled as a computation
    over an explicit state (the contents of [localStorage], the requests sent
    so far, the console) which may return, throw, or leave the modelled
    fragment of JavaScript.  What the program cannot control (whether there
    is a [window], whether storage works, [process.env], the URL parser and
    the network) is collected in an environment record.

    Modelled: the token store, [handleResponse], [apiClient] with [api.get]
    and [api.post], [extractErrorMessage], [login], [logout],
    [refreshToken], [getCurrentUser] and [isAuthenticated]; then the other
    verbs of [api], [register], the session context of auth-context.tsx,
    [AuthGuard], and the token holder of the earlier api-client.ts. *)

From Stdlib Require Import ZArith List Bool Lia DecimalString.
From stdpp Require Import base option strings gmap.
Import ListNotations.

Open Scope string_scope.

(** ** JavaScript values that arrive as JSON *)

(** What [JSON.parse] can return.  Numbers are the integers; a fractional
    number is outside the model.  An object is the list of its own
    properties, in order. *)
#[warnings="-register-all"]
Inductive Json : Type :=
| JNull
| JBool (b : bool)
| JNum (n : Z)
| JStr (s : string)
| JArr (items : list Json)
| JObj (fields : list (string * Json)).

(** A value read from a property: [None] is [undefined]. *)
Abbreviation JsVal := (option Json).

(** ToBoolean. *)
Definition truthy (v : JsVal) : bool :=
  match v with
  | None | Some JNull => false
  | Some (JBool b) => b
  | Some (JNum n) => negb (n =? 0)%Z
  | Some (JStr s) => negb (String.eqb s "")
  | Some (JArr _) | Some (JObj _) => true
  end.

Fixpoint assoc (k : string) (fields : list (string * Json)) : JsVal :=
  match fields with
  | [] => None
  | (k', v) :: rest => if String.eqb k k' then Some v else assoc k rest
  end.

(** [v.k] for a named property [k] on a value that is neither [null] nor
    [undefined].  Arrays and strings answer [length]; no other name used by
    the program is defined on a prototype. *)
Definition prop (v : Json) (k : string) : JsVal :=
  match v with
  | JObj fields => assoc k fields
  | JArr items =>
      if String.eqb k "length" then Some (JNum (Z.of_nat (length items))) else None
  | JStr s =>
      if String.eqb k "length" then Some (JNum (Z.of_nat (String.length s))) else None
  | JNull | JBool _ | JNum _ => None
  end.

(** [v[0]] on a value that is neither [null] nor [undefined]. *)
Definition elem0 (v : Json) : JsVal :=
  match v with
  | JObj fields => assoc "0" fields
  | JArr items => head items
  | JStr s =>
      match s with
      | EmptyString => None
      | String c _ => Some (JStr (String c EmptyString))
      end
  | JNull | JBool _ | JNum _ => None
  end.

Definition decimal (n : Z) : string := NilZero.string_of_int (Z.to_int n).

(** ToString, where the model determines it: [None] for an integer too large
    to print digit by digit (beyond 2^53) and for an object with a property
    named [toString], whose conversion is not the default one. *)
Fixpoint js_String (v : Json) : option string :=
  match v with
  | JNull => Some "null"
  | JBool true => Some "true"
  | JBool false => Some "false"
  | JNum n => if (Z.abs n <=? 2 ^ 53)%Z then Some (decimal n) else None
  | JStr s => Some s
  | JArr items =>
      (fix join (l : list Json) : option string :=
         match l with
         | [] => Some ""
         | x :: rest =>
             match (match x with JNull => Some "" | _ => js_String x end) with
             | None => None
             | Some sx =>
                 match rest with
                 | [] => Some sx
                 | _ :: _ =>
                     match join rest with
                     | None => None
                     | Some sr => Some (sx +:+ "," +:+ sr)
                     end
                 end
             end
         end) items
  | JObj fields =>
      match assoc "toString" fields with
      | None => Some "[object Object]"
      | Some _ => None
      end
  end.

(** [v > 0], where the model determines it: [None] when the answer depends
    on reading a number out of text ([v] a string or an array) or on a
    non-default conversion of an object. *)
Definition js_positive (v : JsVal) : option bool :=
  match v with
  | None | Some JNull => Some false
  | Some (JBool b) => Some b
  | Some (JNum n) => Some (0 <? n)%Z
  | Some (JStr _) | Some (JArr _) => None
  | Some (JObj fields) =>
      match assoc "toString" fields with
      | None => Some false
      | Some _ => None
      end
  end.

(** [hay.includes(needle)] on strings. *)
Fixpoint includes (needle hay : string) : bool :=
  String.prefix needle hay
  || match hay with
     | EmptyString => false
     | String _ rest => includes needle rest
     end.

(** [s.replace(/\/$/, '')]: drop one slash at the very end. *)
Fixpoint strip_trailing_slash (s : string) : string :=
  match s with
  | EmptyString => EmptyString
  | String c rest =>
      match rest with
      | EmptyString => if String.eqb s "/" then EmptyString else s
      | String _ _ => String c (strip_trailing_slash rest)
      end
  end.

(** ** Errors and outcomes *)

(** An [Error] object.  [interface ApiError extends Error] adds the three
    optional fields; [None] means the property is not there. *)
Record JsError : Type := mkJsError {
  message : string;
  status : option Z;
  statusText : option string;
  data : JsVal;
}.

(** [new Error(msg)] with a string. *)
Definition Error (msg : string) : JsError :=
  {| message := msg; status := None; statusText := None; data := None |}.

(** What a [catch] clause receives: an [Error] object, or any other value
    that was thrown or rejected with. *)
Inductive Thrown : Type :=
| Err (e : JsError)
| NonErr (v : JsVal).

(** Errors raised by the runtime rather than by the program.  Their text is
    the engine's; one representative text stands for each. *)
Definition TypeError_property : Thrown :=
  Err (Error "Cannot read properties of undefined or null").
Definition TypeError_body_used : Thrown :=
  Err (Error "Failed to execute 'text' on 'Response': body stream already read").
Definition SyntaxError_json : Thrown :=
  Err (Error "Unexpected token in JSON").
Definition TypeError_url : Thrown :=
  Err (Error "Invalid URL").
Definition TypeError_instanceof : Thrown :=
  Err (Error "Right-hand side of 'instanceof' is not callable").
Definition SecurityError_storage : Thrown :=
  Err (Error "The operation is insecure.").
Definition QuotaExceededError_storage : Thrown :=
  Err (Error "The quota has been exceeded.").

(** The result of running a piece of the program.  [Unmodelled]: the run
    needs a conversion that [js_String] or [js_positive] leaves open. *)
Inductive Outcome (A : Type) : Type :=
| Ret (a : A)
| Throw (t : Thrown)
| Unmodelled.
Arguments Ret {A} a.
Arguments Throw {A} t.
Arguments Unmodelled {A}.

#[export] Instance Outcome_ret : MRet Outcome := fun A a => Ret a.
#[export] Instance Outcome_bind : MBind Outcome := fun A B k o =>
  match o with
  | Ret a => k a
  | Throw t => Throw t
  | Unmodelled => Unmodelled
  end.

Definition of_option {A : Type} (o : option A) : Outcome A :=
  match o with
  | Some a => Ret a
  | None => Unmodelled
  end.

(** [v.k], which throws on [null] and [undefined]. *)
Definition member (v : JsVal) (k : string) : Outcome JsVal :=
  match v with
  | None | Some JNull => Throw TypeError_property
  | Some j => Ret (prop j k)
  end.

(** [v?.k]. *)
Definition opt_member (v : JsVal) (k : string) : JsVal :=
  match v with
  | None | Some JNull => None
  | Some j => prop j k
  end.

(** [v?.[0]]. *)
Definition opt_first (v : JsVal) : JsVal :=
  match v with
  | None | Some JNull => None
  | Some j => elem0 j
  end.

(** [new Error(v)]: the message is [ToString(v)], and empty for [undefined]. *)
Definition new_Error (v : JsVal) : Outcome JsError :=
  match v with
  | None => Ret (Error "")
  | Some j => s ← of_option (js_String j); Ret (Error s)
  end.

(** ** The environment and the state *)

Record ProcessEnv : Type := {
  NEXT_PUBLIC_DIRECTUS_URL : option string;
  NEXT_PUBLIC_API_BASE_URL : option string;
  NEXT_PUBLIC_API_KEY : option string;
}.

(** [new URL(endpoint, base)] with its query is kept as a term; the URL of
    [refreshToken] is a plain string. *)
Inductive Url : Type :=
| URL_new (endpoint base : string) (query : list (string * string))
| URL_text (s : string).

(** A call of [fetch].  The body is the value handed to [JSON.stringify]. *)
Record Request : Type := {
  req_url : Url;
  req_method : string;
  req_headers : list (string * string);
  req_body : JsVal;
}.

(** A response payload: its text, and what [JSON.parse] makes of the text
    ([None] when it raises a [SyntaxError]). *)
Record Payload : Type := {
  text : string;
  parsed : option Json;
}.

(** A [Response].  [resp_body] is [None] for a response whose body is null. *)
Record Response : Type := {
  resp_status : Z;
  resp_statusText : string;
  resp_contentType : option string;
  resp_body : option Payload;
}.

Inductive FetchOutcome : Type :=
| Resolve (r : Response)
| Reject (t : Thrown).

(** Everything outside the program's control.
    - [has_window]: [typeof window !== 'undefined'];
    - [storage_access]: touching [localStorage] does not raise;
    - [storage_room]: [setItem] does not raise for want of quota;
    - [process]: [process.env], [None] when [process] is undefined;
    - [URL_accepts endpoint base]: the URL constructor accepts the pair;
    - [network sent q]: how [fetch] settles request [q] after the requests
      [sent]. *)
Record Env : Type := {
  has_window : bool;
  storage_access : bool;
  storage_room : bool;
  process : option ProcessEnv;
  URL_accepts : string -> string -> bool;
  network : list Request -> Request -> FetchOutcome;
}.

Record State : Type := {
  localStorage : gmap string string;
  sent : list Request;
  console : list string;
}.

(** A computation: it reads and updates the state, and the state survives a
    throw. *)
Definition M (A : Type) : Type := State -> Outcome A * State.

#[export] Instance M_ret : MRet M := fun A a st => (Ret a, st).
#[export] Instance M_bind : MBind M := fun A B k m st =>
  match m st with
  | (Ret a, st') => k a st'
  | (Throw t, st') => (Throw t, st')
  | (Unmodelled, st') => (Unmodelled, st')
  end.

Definition throw {A : Type} (t : Thrown) : M A := fun st => (Throw t, st).

Definition lift {A : Type} (o : Outcome A) : M A := fun st => (o, st).

(** [try { body } catch (error) { handler }]. *)
Definition try_catch {A : Type} (body : M A) (handler : Thrown -> M A) : M A :=
  fun st =>
    match body st with
    | (Throw t, st') => handler t st'
    | other => other
    end.

Definition when (b : bool) (m : M unit) : M unit :=
  if b then m else mret tt.

(** Truthiness of a [string | null | undefined]. *)
Definition nonempty (o : option string) : bool :=
  match o with
  | Some s => negb (String.eqb s "")
  | None => false
  end.

Definition newline : string :=
  String (Ascii.Ascii false true false true false false false false) EmptyString.

Definition ACCESS_KEY : string := "directus_access_token".
Definition REFRESH_KEY : string := "directus_refresh_token".

Record RequestOptions : Type := {
  method : option string;
  params : option (list (string * Json));
  body : JsVal;
  headers : list (string * string);
}.

(** [headers[k] = v] on a header object: an existing key keeps its place, a
    new one goes last.  [spread] is [{...defaults, ...custom}]. *)
Fixpoint set_header (k v : string) (hs : list (string * string)) : list (string * string) :=
  match hs with
  | [] => [(k, v)]
  | (k', v') :: rest =>
      if String.eqb k k' then (k, v) :: rest else (k', v') :: set_header k v rest
  end.

Definition spread (defaults custom : list (string * string)) : list (string * string) :=
  fold_left (fun acc kv => set_header (fst kv) (snd kv) acc) custom defaults.

Definition ok (r : Response) : bool :=
  (200 <=? resp_status r)%Z && (resp_status r <=? 299)%Z.

(** ** Reading a response body

    [json()] and [text()] consume the body (Fetch Standard, "consume body").
    On a body that has been read both reject with a [TypeError], whatever the
    first read produced: [json()] reads the whole stream before it parses.
    A null body is read as empty and can be read again.  The flag is
    [bodyUsed]. *)
Definition Response_json (r : Response) (used : bool) : Outcome Json * bool :=
  match resp_body r with
  | None => (Throw SyntaxError_json, used)
  | Some p =>
      if used then (Throw TypeError_body_used, true)
      else (match parsed p with
            | Some j => Ret j
            | None => Throw SyntaxError_json
            end, true)
  end.

Definition Response_text (r : Response) (used : bool) : Outcome string * bool :=
  match resp_body r with
  | None => (Ret "", used)
  | Some p =>
      if used then (Throw TypeError_body_used, true)
      else (Ret (text p), true)
  end.

(** [handleResponse] of api-client.ts. *)
Definition handleResponse (response : Response) : Outcome Json :=
  if negb (ok response) then
    let error :=
      {| message := "API Error: " +:+ resp_statusText response;
         status := Some (resp_status response);
         statusText := Some (resp_statusText response);
         data := None |} in
    let '(first_read, used) := Response_json response false in
    match first_read with
    | Ret j =>
        Throw (Err {| message := message error; status := status error;
                      statusText := statusText error; data := Some j |})
    | Throw _ =>
        s ← fst (Response_text response used);
        Throw (Err {| message := message error; status := status error;
                      statusText := statusText error; data := Some (JStr s) |})
    | Unmodelled => Unmodelled
    end
  else
    match resp_contentType response with
    | Some contentType =>
        if negb (String.eqb contentType "") && includes "application/json" contentType
        then fst (Response_json response false)
        else s ← fst (Response_text response false); Ret (JStr s)
    | None => s ← fst (Response_text response false); Ret (JStr s)
    end.

(** ** The program, in an environment *)

Section Program.

Context (env : Env).

(** *** [localStorage] and the console *)

Definition getItem (k : string) : M (option string) := fun st =>
  if storage_access env then (Ret (localStorage st !! k), st)
  else (Throw SecurityError_storage, st).

Definition setItem (k v : string) : M unit := fun st =>
  if negb (storage_access env) then (Throw SecurityError_storage, st)
  else if negb (storage_room env) then (Throw QuotaExceededError_storage, st)
  else (Ret tt, {| localStorage := <[k := v]> (localStorage st);
                   sent := sent st; console := console st |}).

Definition removeItem (k : string) : M unit := fun st =>
  if storage_access env
  then (Ret tt, {| localStorage := delete k (localStorage st);
                   sent := sent st; console := console st |})
  else (Throw SecurityError_storage, st).

Definition console_error (msg : string) : M unit := fun st =>
  (Ret tt, {| localStorage := localStorage st; sent := sent st;
              console := (console st ++ [msg])%list |}).

(** *** The token store (api-client.ts) *)

Definition setAuthToken (token : string) : M unit :=
  if has_window env then
    try_catch (setItem ACCESS_KEY token)
              (fun _ => console_error "Failed to save token to localStorage:")
  else mret tt.

Definition setRefreshToken (token : string) : M unit :=
  if has_window env then
    try_catch (setItem REFRESH_KEY token)
              (fun _ => console_error "Failed to save refresh token to localStorage:")
  else mret tt.

Definition getAuthToken : M (option string) :=
  if negb (has_window env) then mret None
  else try_catch (getItem ACCESS_KEY) (fun _ => mret None).

Definition getRefreshToken : M (option string) :=
  if negb (has_window env) then mret None
  else try_catch (getItem REFRESH_KEY) (fun _ => mret None).

Definition clearAuthTokens : M unit :=
  if has_window env then
    try_catch (removeItem ACCESS_KEY;; removeItem REFRESH_KEY)
              (fun _ => console_error "Failed to clear tokens from localStorage:")
  else mret tt.

(** *** The HTTP client (api-client.ts) *)

Definition base_url_not_set : Thrown :=
  Err (Error
    ("NEXT_PUBLIC_DIRECTUS_URL is not set. Please set it in your .env.local file (local) or environment variables (production)."
     +:+ newline +:+ "Example: NEXT_PUBLIC_DIRECTUS_URL=https://cms.explorerelite.com")).

Definition getApiBaseUrl : Outcome string :=
  let directusUrl :=
    match process env with
    | Some p => NEXT_PUBLIC_DIRECTUS_URL p
    | None => None
    end in
  let baseUrl :=
    if nonempty directusUrl then directusUrl
    else match process env with
         | Some p => NEXT_PUBLIC_API_BASE_URL p
         | None => None
         end in
  match baseUrl with
  | Some url =>
      if nonempty baseUrl then Ret (strip_trailing_slash url)
      else Throw base_url_not_set
  | None => Throw base_url_not_set
  end.

Definition getStoredAuthToken : M (option string) :=
  if negb (has_window env) then mret None
  else try_catch (getItem ACCESS_KEY) (fun _ => mret None).

Definition getDefaultHeaders : M (list (string * string)) :=
  let headers := [("Content-Type", "application/json")] in
  token ← getStoredAuthToken;
  let headers :=
    match token with
    | Some t =>
        if nonempty token then set_header "Authorization" ("Bearer " +:+ t) headers
        else headers
    | None => headers
    end in
  let headers :=
    match process env with
    | Some p =>
        match NEXT_PUBLIC_API_KEY p with
        | Some key =>
            if has_window env && nonempty (Some key)
            then set_header "X-API-Key" key headers
            else headers
        | None => headers
        end
    | None => headers
    end in
  mret headers.

Fixpoint query_of (ps : list (string * Json)) : Outcome (list (string * string)) :=
  match ps with
  | [] => Ret []
  | (key, value) :: rest =>
      s ← of_option (js_String value);
      q ← query_of rest;
      Ret ((key, s) :: q)
  end.

Definition buildUrl (endpoint : string) (ps : option (list (string * Json))) : Outcome Url :=
  baseUrl ← getApiBaseUrl;
  if URL_accepts env endpoint baseUrl then
    match ps with
    | Some l => q ← query_of l; Ret (URL_new endpoint baseUrl q)
    | None => Ret (URL_new endpoint baseUrl [])
    end
  else Throw TypeError_url.

Definition fetch (q : Request) : M Response := fun st =>
  let st' := {| localStorage := localStorage st; sent := (sent st ++ [q])%list;
                console := console st |} in
  match network env (sent st) q with
  | Resolve r => (Ret r, st')
  | Reject t => (Throw t, st')
  end.

(** [apiClient].  The promise of [handleResponse] is returned from inside
    the [try] without being awaited there, so the [catch] sees only what
    [fetch] rejects with. *)
Definition apiClient (endpoint : string) (options : RequestOptions) : M Json :=
  url ← lift (buildUrl endpoint (params options));
  defaultHeaders ← getDefaultHeaders;
  let config :=
    {| req_url := url;
       req_method := default "GET" (method options);
       req_headers := spread defaultHeaders (headers options);
       req_body := if truthy (body options) then body options else None |} in
  response ← try_catch (fetch config)
    (fun error =>
       match error with
       | Err e =>
           match status e with
           | Some _ => throw error
           | None => throw (Err (Error ("Network error: " +:+ message e)))
           end
       | NonErr _ => throw (Err (Error "Network error: Unknown error"))
       end);
  lift (handleResponse response).

Definition api_get (endpoint : string) : M Json :=
  apiClient endpoint
    {| method := Some "GET"; params := None; body := None; headers := [] |}.

Definition api_post (endpoint : string) (payload : Json) : M Json :=
  apiClient endpoint
    {| method := Some "POST"; params := None; body := Some payload; headers := [] |}.

End Program.

(** ** The auth service (auth.ts) *)

Record LoginCredentials : Type := {
  email : string;
  password : string;
}.

(** [AuthUser].  The fields are copied from the response unchecked, so each
    holds whatever the response had there. *)
Record AuthUser : Type := {
  user_id : JsVal;
  user_email : JsVal;
  user_firstName : JsVal;
  user_lastName : JsVal;
  user_role : JsVal;
  user_status : JsVal;
}.

(** [error instanceof ApiError] as it runs in auth.ts.  api-client.ts
    declares [ApiError] as an interface and exports it with [export type],
    so the name that auth.ts imports and uses as a value is bound to no
    value: [undefined].  [instanceof] with a right-hand side that is not
    callable throws a [TypeError], whatever stands on the left. *)
Definition instanceof_ApiError (error : Thrown) : Outcome bool :=
  Throw TypeError_instanceof.

Definition is_status (e : JsError) (code : Z) : bool :=
  match status e with
  | Some s => (s =? code)%Z
  | None => false
  end.

(** [typeof v === 'object' && v !== null]. *)
Definition is_object (v : JsVal) : bool :=
  match v with
  | Some (JArr _) | Some (JObj _) => true
  | _ => false
  end.

Definition extractErrorMessage (error : Thrown) : Outcome JsVal :=
  isApiError ← instanceof_ApiError error;
  match error with
  | Err e =>
      if isApiError : bool then
        let errorData := data e in
        let errors := opt_member errorData "errors" in
        has_errors ←
          (if truthy errors
           then len ← member errors "length"; of_option (js_positive len)
           else Ret false);
        if has_errors : bool then
          entry ← match errors with
                  | None | Some JNull => Throw TypeError_property
                  | Some j => Ret (elem0 j)
                  end;
          member entry "message"
        else
          let msg := if is_object (data e) then opt_member (data e) "message" else None in
          if truthy msg then
            match msg with
            | Some j => s ← of_option (js_String j); Ret (Some (JStr s))
            | None => Ret None
            end
          else if is_status e 401 then Ret (Some (JStr "Invalid email or password"))
          else if is_status e 403 then Ret (Some (JStr "Access forbidden"))
          else if is_status e 404 then Ret (Some (JStr "Endpoint not found"))
          else if is_status e 422 then
            Ret (Some (JStr "Validation error. Please check your input."))
          else if is_status e 500 then
            Ret (Some (JStr "Server error. Please try again later."))
          else
            match statusText e with
            | Some t =>
                if nonempty (statusText e) then Ret (Some (JStr t))
                else Ret (Some (JStr "An error occurred"))
            | None => Ret (Some (JStr "An error occurred"))
            end
      else Ret (Some (JStr (message e)))
  | NonErr _ =>
      (* an instance of a class that is not an [Error] object is not modelled *)
      if isApiError : bool then Unmodelled
      else Ret (Some (JStr "An unexpected error occurred"))
  end.

(** The object literal that [login] and [getCurrentUser] build from the
    reply to [/users/me]. *)
Definition user_of (response : Json) : Outcome AuthUser :=
  d ← member (Some response) "data";
  i ← member d "id";
  e ← member d "email";
  f ← member d "first_name";
  l ← member d "last_name";
  r ← member d "role";
  s ← member d "status";
  Ret {| user_id := i; user_email := e; user_firstName := f;
         user_lastName := l; user_role := r; user_status := s |}.

Section Auth.

Context (env : Env).

(** The two guarded stores that follow a login or refresh reply.  A value
    that is not a string is stored as its [ToString]. *)
Definition store_tokens (response : Json) : M unit :=
  d ← lift (member (Some response) "data");
  match opt_member d "access_token" with
  | Some access =>
      when (truthy (Some access))
           (s ← lift (of_option (js_String access)); setAuthToken env s)
  | None => mret tt
  end;;
  d ← lift (member (Some response) "data");
  match opt_member d "refresh_token" with
  | Some refresh =>
      when (truthy (Some refresh))
           (s ← lift (of_option (js_String refresh)); setRefreshToken env s)
  | None => mret tt
  end.

Definition login (credentials : LoginCredentials) : M AuthUser :=
  try_catch
    (response ← api_post env "/auth/login"
       (JObj [("email", JStr (email credentials));
              ("password", JStr (password credentials))]);
     store_tokens response;;
     userResponse ← api_get env "/users/me";
     lift (user_of userResponse))
    (fun error =>
       errorMessage ← lift (extractErrorMessage error);
       e ← lift (new_Error errorMessage);
       throw (Err e)).

Definition logout : M unit := clearAuthTokens env.

Definition refreshToken : M JsVal :=
  refreshTokenValue ← getRefreshToken env;
  match refreshTokenValue with
  | None => throw (Err (Error "No refresh token available"))
  | Some token =>
      if negb (nonempty refreshTokenValue)
      then throw (Err (Error "No refresh token available"))
      else
        try_catch
          (let directusUrl :=
             match process env with
             | Some p => NEXT_PUBLIC_DIRECTUS_URL p
             | None => None
             end in
           match directusUrl with
           | None => throw (Err (Error "Directus URL not configured"))
           | Some url =>
               if negb (nonempty directusUrl)
               then throw (Err (Error "Directus URL not configured"))
               else
                 let baseUrl := strip_trailing_slash url in
                 response ← fetch env
                   {| req_url := URL_text (baseUrl +:+ "/auth/refresh");
                      req_method := "POST";
                      req_headers := [("Content-Type", "application/json")];
                      req_body := Some (JObj [("refresh_token", JStr token)]) |};
                 if negb (ok response) then
                   let errorData :=
                     match fst (Response_json response false) with
                     | Ret j => j
                     | _ => JObj []
                     end in
                   errors ← lift (member (Some errorData) "errors");
                   let msg := opt_member (opt_first errors) "message" in
                   e ← lift (new_Error
                               (if truthy msg then msg
                                else Some (JStr "Failed to refresh token")));
                   throw (Err e)
                 else
                   result ← lift (fst (Response_json response false));
                   store_tokens result;;
                   d ← lift (member (Some result) "data");
                   lift (member d "access_token")
           end)
          (fun error =>
             clearAuthTokens env;;
             errorMessage ← lift (extractErrorMessage error);
             e ← lift (new_Error errorMessage);
             throw (Err e))
  end.

Definition getCurrentUser : M (option AuthUser) :=
  token ← getAuthToken env;
  if negb (nonempty token) then mret None
  else
    try_catch
      (response ← api_get env "/users/me";
       user ← lift (user_of response);
       mret (Some user))
      (fun error =>
         isApiError ← lift (instanceof_ApiError error);
         when (isApiError && match error with
                             | Err e => is_status e 401
                             | NonErr _ => false
                             end) (clearAuthTokens env);;
         mret None).

Definition isAuthenticated : M bool :=
  token ← getAuthToken env;
  mret (match token with
        | Some _ => true
        | None => false
        end).

End Auth.

(** ** The rest of the client and of the auth service *)

Section More.

Context (env : Env).

Definition api_put (endpoint : string) (payload : JsVal) : M Json :=
  apiClient env endpoint
    {| method := Some "PUT"; params := None; body := payload; headers := [] |}.

Definition api_patch (endpoint : string) (payload : JsVal) : M Json :=
  apiClient env endpoint
    {| method := Some "PATCH"; params := None; body := payload; headers := [] |}.

Definition api_delete (endpoint : string) : M Json :=
  apiClient env endpoint
    {| method := Some "DELETE"; params := None; body := None; headers := [] |}.

End More.

Record RegisterCredentials : Type := {
  reg_email : string;
  reg_password : string;
  reg_first_name : option string;
  reg_last_name : option string;
}.

(** A property of a request object whose value may be [undefined]: it is
    left out, as [JSON.stringify] leaves it out. *)
Definition optional_field (k : string) (v : option string) : list (string * Json) :=
  match v with
  | Some s => [(k, JStr s)]
  | None => []
  end.

Section Registration.

Context (env : Env).

Definition register (credentials : RegisterCredentials) : M AuthUser :=
  try_catch
    (createUserResponse ← api_post env "/users"
       (JObj ([("email", JStr (reg_email credentials));
               ("password", JStr (reg_password credentials))]
              ++ optional_field "first_name" (reg_first_name credentials)
              ++ optional_field "last_name" (reg_last_name credentials))%list);
     loginResponse ← api_post env "/auth/login"
       (JObj [("email", JStr (reg_email credentials));
              ("password", JStr (reg_password credentials))]);
     store_tokens env loginResponse;;
     lift (user_of createUserResponse))
    (fun error =>
       errorMessage ← lift (extractErrorMessage error);
       e ← lift (new_Error errorMessage);
       throw (Err e)).

End Registration.

(** ** The session context (auth-context.tsx)

    [AuthProvider] holds [user] and [loading] and calls the router.  A tab
    is the store together with that state; the routes pushed are kept in
    order. *)

Record Session : Type := {
  user : option AuthUser;
  loading : bool;
  pushed : list string;
}.

Record Tab : Type := {
  store : State;
  session : Session;
}.

(** [useState(null)] and [useState(true)], nothing pushed yet. *)
Definition mounting : Session :=
  {| user := None; loading := true; pushed := [] |}.

Definition U (A : Type) : Type := Tab -> Outcome A * Tab.

#[export] Instance U_ret : MRet U := fun A a t => (Ret a, t).
#[export] Instance U_bind : MBind U := fun A B k m t =>
  match m t with
  | (Ret a, t') => k a t'
  | (Throw e, t') => (Throw e, t')
  | (Unmodelled, t') => (Unmodelled, t')
  end.

(** A call into auth.ts or api-client.ts. *)
Definition call {A : Type} (m : M A) : U A := fun t =>
  let '(o, st) := m (store t) in (o, {| store := st; session := session t |}).

Definition setUser (u : option AuthUser) : U unit := fun t =>
  (Ret tt, {| store := store t;
              session := {| user := u; loading := loading (session t);
                            pushed := pushed (session t) |} |}).

Definition setLoading (b : bool) : U unit := fun t =>
  (Ret tt, {| store := store t;
              session := {| user := user (session t); loading := b;
                            pushed := pushed (session t) |} |}).

Definition router_push (route : string) : U unit := fun t =>
  (Ret tt, {| store := store t;
              session := {| user := user (session t); loading := loading (session t);
                            pushed := (pushed (session t) ++ [route])%list |} |}).

Definition rethrow {A : Type} (e : Thrown) : U A := fun t => (Throw e, t).

(** [try { body } catch (error) { handler } finally { finalizer }]: the
    finalizer runs after either, and the outcome is the one reached before
    it unless the finalizer itself does not return. *)
Definition try_catch_finally {A : Type}
    (body : U A) (handler : Thrown -> U A) (finalizer : U unit) : U A :=
  fun t =>
    let '(o, t1) :=
      match body t with
      | (Throw e, t') => handler e t'
      | other => other
      end in
    match o with
    | Unmodelled => (Unmodelled, t1)
    | _ =>
        match finalizer t1 with
        | (Ret _, t2) => (o, t2)
        | (Throw e, t2) => (Throw e, t2)
        | (Unmodelled, t2) => (Unmodelled, t2)
        end
    end.

Module AuthContext.

Section Provider.

Context (env : Env).

(** [import { login as authLogin, register as authRegister, logout as
    authLogout, getCurrentUser, isAuthenticated } from '@/lib/auth']. *)
Definition authLogin := login env.
Definition authRegister := register env.
Definition authLogout := logout env.

(** The effect run on mount. *)
Definition checkAuth : U unit :=
  try_catch_finally
    (authenticated ← call (isAuthenticated env);
     if authenticated : bool then
       currentUser ← call (getCurrentUser env);
       setUser currentUser
     else mret tt)
    (fun error =>
       call (console_error "Error checking authentication:");;
       setUser None)
    (setLoading false).

Definition login (credentials : LoginCredentials) : U unit :=
  try_catch_finally
    (setLoading true;;
     userData ← call (authLogin credentials);
     setUser (Some userData);;
     router_push "/")
    (fun error => setLoading false;; rethrow error)
    (setLoading false).

Definition register (credentials : RegisterCredentials) : U unit :=
  try_catch_finally
    (setLoading true;;
     userData ← call (authRegister credentials);
     setUser (Some userData);;
     router_push "/")
    (fun error => setLoading false;; rethrow error)
    (setLoading false).

Definition logout : U unit :=
  call authLogout;;
  setUser None;;
  router_push "/login".

Definition refreshUser : U unit :=
  try_catch_finally
    (currentUser ← call (getCurrentUser env);
     setUser currentUser)
    (fun error =>
       call (console_error "Error refreshing user:");;
       setUser None)
    (mret tt).

End Provider.

(** The [isAuthenticated] of the context value: [!!user]. *)
Definition isAuthenticated (s : Session) : bool :=
  match user s with
  | Some _ => true
  | None => false
  end.

End AuthContext.

(** ** AuthGuard (auth-guard.tsx) *)

Inductive Rendered : Type :=
| LoadingScreen
| Nothing
| Children.

(** What [AuthGuard] returns for the context value it reads. *)
Definition AuthGuard (s : Session) : Rendered :=
  if loading s then LoadingScreen
  else if negb (AuthContext.isAuthenticated s) then Nothing
  else Children.

(** Its effect: the route it pushes, if any. *)
Definition AuthGuard_effect (redirectTo : string) (s : Session) : option string :=
  if negb (loading s) && negb (AuthContext.isAuthenticated s) then Some redirectTo
  else None.

(** ** The earlier token holder (lib/api-client.ts before the token store)

    [setAuthToken] and [getAuthToken] keep the token in
    [process.env.API_TOKEN], and only where there is no [window]. *)
Module Legacy.

Record Runtime : Type := {
  window_defined : bool;
  process_defined : bool;
}.

(** The state is the value of [process.env.API_TOKEN]. *)
Definition setAuthToken (rt : Runtime) (token : string) (API_TOKEN : option string)
  : option string :=
  if negb (window_defined rt) && process_defined rt then Some token else API_TOKEN.

Definition getAuthToken (rt : Runtime) (API_TOKEN : option string) : option string :=
  if negb (window_defined rt) && process_defined rt then API_TOKEN else None.

End Legacy.

(** * Vocabulary of the properties *)

(** What the getters can see: the stored value in a browser whose storage
    answers, nothing otherwise. *)
Definition visible (env : Env) (st : State) (k : string) : option string :=
  if has_window env && storage_access env then localStorage st !! k else None.

(** The state after one more request. *)
Definition sending (st : State) (q : Request) : State :=
  {| localStorage := localStorage st; sent := (sent st ++ [q])%list;
     console := console st |}.




(** The state after one more line on the console. *)
Definition logging (st : State) (msg : string) : State :=
  {| localStorage := localStorage st; sent := sent st;
     console := (console st ++ [msg])%list |}.

(** The error object [handleResponse] builds for a response, with data [d]. *)
Definition api_error (r : Response) (d : Json) : Thrown :=
  Err {| message := "API Error: " +:+ resp_statusText r;
         status := Some (resp_status r);
         statusText := Some (resp_statusText r);
         data := Some d |}.

Definition declares_json (r : Response) : bool :=
  match resp_contentType r with
  | Some ct => includes "application/json" ct
  | None => false
  end.

(** A 2xx reply that declares JSON and whose body parses to [j]. *)
Definition json_reply (r : Response) (j : Json) : Prop :=
  ok r = true /\ declares_json r = true /\
  exists p, resp_body r = Some p /\ parsed p = Some j.

(** The client is configured and the URL constructor accepts [endpoint]. *)
Definition reaches (env : Env) (endpoint : string) : Prop :=
  exists base, getApiBaseUrl env = Ret base /\ URL_accepts env endpoint base = true.

(** The server answers every [verb] request for [endpoint] with [r]. *)
Definition answers (env : Env) (verb endpoint : string) (r : Response) : Prop :=
  forall sent_before q base query,
    req_method q = verb ->
    req_url q = URL_new endpoint base query ->
    network env sent_before q = Resolve r.

(** The reading that every failing [refreshToken] leaves no token behind. *)
Definition every_refresh_failure_clears : Prop :=
  forall env st t st',
    refreshToken env st = (Throw t, st') ->
    fst (getAuthToken env st') = Ret None /\
    fst (getRefreshToken env st') = Ret None.

(** The value of header [k] in a header object. *)
Fixpoint header (k : string) (hs : list (string * string)) : option string :=
  match hs with
  | [] => None
  | (k', v) :: rest => if String.eqb k k' then Some v else header k rest
  end.

(** The [Authorization] value for a stored token. *)
Definition bearer (token : option string) : option string :=
  match token with
  | Some t => if String.eqb t "" then None else Some ("Bearer " +:+ t)
  | None => None
  end.

(** No base URL: neither variable holds a non-empty string. *)
Definition unconfigured (env : Env) : Prop :=
  forall p, process env = Some p ->
    nonempty (NEXT_PUBLIC_DIRECTUS_URL p) = false /\
    nonempty (NEXT_PUBLIC_API_BASE_URL p) = false.

(** The network is down: every [fetch] rejects with [e]. *)
Definition unreachable (env : Env) (e : JsError) : Prop :=
  forall sent_before q, network env sent_before q = Reject (Err e).

(** The one request [refreshToken] sends. *)
Definition refresh_request (url token : string) : Request :=
  {| req_url := URL_text (strip_trailing_slash url +:+ "/auth/refresh");
     req_method := "POST";
     req_headers := [("Content-Type", "application/json")];
     req_body := Some (JObj [("refresh_token", JStr token)]) |}.

(** [NEXT_PUBLIC_DIRECTUS_URL] is set to the non-empty [url]. *)
Definition directus_url (env : Env) (url : string) : Prop :=
  exists p, process env = Some p /\ NEXT_PUBLIC_DIRECTUS_URL p = Some url /\ url <> "".

(** The user record built from the [data] of a reply. *)
Definition created_user (profile : list (string * Json)) : AuthUser :=
  {| user_id := assoc "id" profile;
     user_email := assoc "email" profile;
     user_firstName := assoc "first_name" profile;
     user_lastName := assoc "last_name" profile;
     user_role := assoc "role" profile;
     user_status := assoc "status" profile |}.

(** * Sample environments, states and replies *)

Definition cms_env : ProcessEnv :=
  {| NEXT_PUBLIC_DIRECTUS_URL := Some "https://cms.example.com/";
     NEXT_PUBLIC_API_BASE_URL := None;
     NEXT_PUBLIC_API_KEY := None |}.

(** A browser tab with working storage, talking to [net]. *)
Definition browser (net : list Request -> Request -> FetchOutcome) : Env :=
  {| has_window := true; storage_access := true; storage_room := true;
     process := Some cms_env;
     URL_accepts := fun _ _ => true;
     network := net |}.

Definition offline : list Request -> Request -> FetchOutcome :=
  fun _ _ => Reject (Err (Error "Failed to fetch")).

(** A server that routes on the endpoint of the request. *)
Definition routes (login_reply me_reply : Response) : list Request -> Request -> FetchOutcome :=
  fun _ q =>
    match req_url q with
    | URL_new endpoint _ _ =>
        if String.eqb endpoint "/auth/login" then Resolve login_reply
        else if String.eqb endpoint "/users/me" then Resolve me_reply
        else Reject (Err (Error "Failed to fetch"))
    | URL_text _ => Reject (Err (Error "Failed to fetch"))
    end.

Definition empty_store : State :=
  {| localStorage := ∅; sent := []; console := [] |}.

Definition holding (items : gmap string string) : State :=
  {| localStorage := items; sent := []; console := [] |}.

Definition signed_in : State :=
  holding (<[REFRESH_KEY := "R0"]> (<[ACCESS_KEY := "A0"]> ∅)).

Definition credentials : LoginCredentials :=
  {| email := "a@b.com"; password := "x" |}.

Definition quoted (s : string) : string :=
  let q := String (Ascii.Ascii false true false false false true false false) EmptyString in
  q +:+ s +:+ q.

(** The text of a sample payload, for values whose strings need no escape. *)
Fixpoint stringify (j : Json) : string :=
  match j with
  | JNull => "null"
  | JBool true => "true"
  | JBool false => "false"
  | JNum n => decimal n
  | JStr s => quoted s
  | JArr items =>
      "[" +:+ (fix go (l : list Json) : string :=
                 match l with
                 | [] => ""
                 | x :: rest =>
                     stringify x +:+ match rest with [] => "" | _ :: _ => "," +:+ go rest end
                 end) items +:+ "]"
  | JObj fields =>
      "{" +:+ (fix go (l : list (string * Json)) : string :=
                 match l with
                 | [] => ""
                 | (k, v) :: rest =>
                     quoted k +:+ ":" +:+ stringify v
                     +:+ match rest with [] => "" | _ :: _ => "," +:+ go rest end
                 end) fields +:+ "}"
  end.

(** A reply with a JSON body. *)
Definition json_response (code : Z) (reason : string) (j : Json) : Response :=
  {| resp_status := code;
     resp_statusText := reason;
     resp_contentType := Some "application/json; charset=utf-8";
     resp_body := Some {| text := stringify j; parsed := Some j |} |}.

(** The scenario of the spec: tokens T1 and R1, user 1 with a@b.com. *)
Definition scenario_login_reply : Response :=
  json_response 200 "OK"
    (JObj [("data", JObj [("access_token", JStr "T1"); ("refresh_token", JStr "R1")])]).

Definition scenario_me_reply : Response :=
  json_response 200 "OK"
    (JObj [("data", JObj [("id", JStr "1"); ("email", JStr "a@b.com")])]).

Definition scenario_cms : list Request -> Request -> FetchOutcome :=
  routes scenario_login_reply scenario_me_reply.

(** A login reply that carries an access token and no refresh token. *)
Definition access_only_cms : list Request -> Request -> FetchOutcome :=
  routes
    (json_response 200 "OK" (JObj [("data", JObj [("access_token", JStr "T1")])]))
    scenario_me_reply.

(** The CMS refuses the credentials in its own words. *)
Definition invalid_credentials : Response :=
  json_response 401 "Unauthorized"
    (JObj [("errors", JArr [JObj [("message", JStr "Invalid credentials")]])]).

(** The CMS refuses the request, with nothing to say. *)
Definition forbidden : Response :=
  json_response 403 "Forbidden" (JObj []).

(** The CMS no longer accepts the access token. *)
Definition token_expired : Response :=
  json_response 401 "Unauthorized"
    (JObj [("errors", JArr [JObj [("message", JStr "Token expired.")]])]).

(** A 502 from a gateway, with an HTML page for a body. *)
Definition bad_gateway : Response :=
  {| resp_status := 502;
     resp_statusText := "Bad Gateway";
     resp_contentType := Some "text/html";
     resp_body := Some {| text := "<html>502 Bad Gateway</html>"; parsed := None |} |}.

(** A proxy in front of the CMS that answers 401 with a line of text. *)
Definition unauthorized_text : Response :=
  {| resp_status := 401;
     resp_statusText := "Unauthorized";
     resp_contentType := Some "text/plain";
     resp_body := Some {| text := "Unauthorized"; parsed := None |} |}.

Definition proxy_401 : list Request -> Request -> FetchOutcome :=
  fun _ _ => Resolve unauthorized_text.

Definition no_process : Env :=
  {| has_window := true; storage_access := true; storage_room := true;
     process := None;
     URL_accepts := fun _ _ => true;
     network := offline |}.

(** Only the older variable is set. *)
Definition legacy_only : Env :=
  {| has_window := true; storage_access := true; storage_room := true;
     process := Some {| NEXT_PUBLIC_DIRECTUS_URL := None;
                        NEXT_PUBLIC_API_BASE_URL := Some "https://api.example.com/";
                        NEXT_PUBLIC_API_KEY := None |};
     URL_accepts := fun _ _ => true;
     network := offline |}.

(** A server that answers whatever it is sent with [r]. *)
Definition always (r : Response) : list Request -> Request -> FetchOutcome :=
  fun _ _ => Resolve r.

Definition newcomer : RegisterCredentials :=
  {| reg_email := "a@b.com"; reg_password := "x";
     reg_first_name := Some "Ada"; reg_last_name := None |}.

(** A server for registration: it routes [/users] and [/auth/login]. *)
Definition signup_routes (create_reply login_reply : Response)
  : list Request -> Request -> FetchOutcome :=
  fun _ q =>
    match req_url q with
    | URL_new endpoint _ _ =>
        if String.eqb endpoint "/users" then Resolve create_reply
        else if String.eqb endpoint "/auth/login" then Resolve login_reply
        else Reject (Err (Error "Failed to fetch"))
    | URL_text _ => Reject (Err (Error "Failed to fetch"))
    end.

Definition email_taken : Response :=
  json_response 400 "Bad Request"
    (JObj [("errors", JArr [JObj [("message", JStr "Email already exists")]])]).

(** * Properties *)

(** ** Sequencing *)

Lemma run_bind_ret {A B : Type} (m : M A) (k : A -> M B) st a st' :
  m st = (Ret a, st') -> (x ← m; k x) st = k a st'.
Proof. intros H. unfold mbind, M_bind. now rewrite H. Qed.

Lemma run_bind_throw {A B : Type} (m : M A) (k : A -> M B) st t st' :
  m st = (Throw t, st') -> (x ← m; k x) st = (Throw t, st').
Proof. intros H. unfold mbind, M_bind. now rewrite H. Qed.

Lemma run_try_ret {A : Type} (m : M A) (h : Thrown -> M A) st a st' :
  m st = (Ret a, st') -> try_catch m h st = (Ret a, st').
Proof. intros H. unfold try_catch. now rewrite H. Qed.

Lemma run_try_throw {A : Type} (m : M A) (h : Thrown -> M A) st t st' :
  m st = (Throw t, st') -> try_catch m h st = h t st'.
Proof. intros H. unfold try_catch. now rewrite H. Qed.

(** A handler that never returns normally: whatever [try_catch] throws was
    thrown by the handler, started where the body stopped. *)
Lemma try_catch_throws_from_handler {A : Type} (m : M A) (h : Thrown -> M A) st t st' :
  try_catch m h st = (Throw t, st') ->
  exists t0 st0, m st = (Throw t0, st0) /\ h t0 st0 = (Throw t, st').
Proof.
  unfold try_catch. destruct (m st) as [[a | t0 | ] st0] eqn:E; intros H.
  - discriminate.
  - now exists t0, st0.
  - discriminate.
Qed.

(** ** The token store *)

Lemma getAuthToken_run env st :
  getAuthToken env st = (Ret (visible env st ACCESS_KEY), st).
Proof.
  unfold getAuthToken, visible, try_catch, getItem.
  destruct (has_window env), (storage_access env); reflexivity.
Qed.

Lemma getRefreshToken_run env st :
  getRefreshToken env st = (Ret (visible env st REFRESH_KEY), st).
Proof.
  unfold getRefreshToken, visible, try_catch, getItem.
  destruct (has_window env), (storage_access env); reflexivity.
Qed.

Lemma getStoredAuthToken_run env st :
  getStoredAuthToken env st = (Ret (visible env st ACCESS_KEY), st).
Proof. apply getAuthToken_run. Qed.

Lemma keys_differ : ACCESS_KEY <> REFRESH_KEY.
Proof. discriminate. Qed.

(** [clearAuthTokens] always returns; it sends nothing; in a browser whose
    storage answers it removes both keys, and otherwise leaves the map. *)
Lemma clearAuthTokens_run env st :
  exists st',
    clearAuthTokens env st = (Ret tt, st') /\
    sent st' = sent st /\
    localStorage st' =
      (if has_window env && storage_access env
       then delete REFRESH_KEY (delete ACCESS_KEY (localStorage st))
       else localStorage st).
Proof.
  unfold clearAuthTokens, try_catch, mbind, M_bind, removeItem, console_error.
  destruct (has_window env), (storage_access env); simpl; eauto.
Qed.

Lemma clearAuthTokens_hides env st st' o :
  clearAuthTokens env st = (o, st') ->
  visible env st' ACCESS_KEY = None /\ visible env st' REFRESH_KEY = None.
Proof.
  destruct (clearAuthTokens_run env st) as (st1 & Hrun & _ & Hls).
  rewrite Hrun. intros [= _ <-]. unfold visible. rewrite Hls.
  destruct (has_window env && storage_access env); [| now split].
  split.
  - rewrite lookup_delete_ne by (symmetry; apply keys_differ). apply lookup_delete_eq.
  - apply lookup_delete_eq.
Qed.

Lemma setAuthToken_run env token st :
  has_window env = true -> storage_access env = true -> storage_room env = true ->
  setAuthToken env token st =
    (Ret tt, {| localStorage := <[ACCESS_KEY := token]> (localStorage st);
                sent := sent st; console := console st |}).
Proof.
  intros Hw Ha Hr. unfold setAuthToken, try_catch, setItem. now rewrite Hw, Ha, Hr.
Qed.

Lemma setRefreshToken_run env token st :
  has_window env = true -> storage_access env = true -> storage_room env = true ->
  setRefreshToken env token st =
    (Ret tt, {| localStorage := <[REFRESH_KEY := token]> (localStorage st);
                sent := sent st; console := console st |}).
Proof.
  intros Hw Ha Hr. unfold setRefreshToken, try_catch, setItem. now rewrite Hw, Ha, Hr.
Qed.

(** C10.  In a browser whose storage works, a token that was set is the
    token read back, for the access token and for the refresh token and for
    every string; and after [clearAuthTokens] both getters return null. *)
Theorem token_store_round_trip (env : Env) (st : State) (t : string) :
  has_window env = true -> storage_access env = true -> storage_room env = true ->
  fst ((setAuthToken env t;; getAuthToken env) st) = Ret (Some t) /\
  fst ((setRefreshToken env t;; getRefreshToken env) st) = Ret (Some t) /\
  fst ((clearAuthTokens env;; getAuthToken env) st) = Ret None /\
  fst ((clearAuthTokens env;; getRefreshToken env) st) = Ret None.
Proof.
  intros Hw Ha Hr. repeat split.
  - erewrite run_bind_ret by (apply setAuthToken_run; assumption).
    rewrite getAuthToken_run. unfold visible. rewrite Hw, Ha. simpl.
    now rewrite lookup_insert_eq.
  - erewrite run_bind_ret by (apply setRefreshToken_run; assumption).
    rewrite getRefreshToken_run. unfold visible. rewrite Hw, Ha. simpl.
    now rewrite lookup_insert_eq.
  - destruct (clearAuthTokens_run env st) as (st' & Hrun & _).
    erewrite run_bind_ret by exact Hrun. rewrite getAuthToken_run. simpl.
    now destruct (clearAuthTokens_hides _ _ _ _ Hrun) as [-> _].
  - destruct (clearAuthTokens_run env st) as (st' & Hrun & _).
    erewrite run_bind_ret by exact Hrun. rewrite getRefreshToken_run. simpl.
    now destruct (clearAuthTokens_hides _ _ _ _ Hrun) as [_ ->].
Qed.

Lemma token_store_round_trip_witness :
  fst ((setAuthToken (browser offline) "T1";; getAuthToken (browser offline)) empty_store)
  = Ret (Some "T1").
Proof.
  exact (proj1 (token_store_round_trip (browser offline) empty_store "T1"
                  eq_refl eq_refl eq_refl)).
Defined.

(** ** logout *)

(** C7.  From every state and in every environment [logout] returns, sends
    no request and leaves no token for the getters to see: in a browser
    whose storage answers both keys are gone from the store.  A second
    [logout] changes nothing in the store and sends nothing either. *)
Theorem logout_clears_and_is_idempotent (env : Env) (st : State) :
  let st1 := snd (logout env st) in
  let st2 := snd (logout env st1) in
  fst (logout env st) = Ret tt /\
  sent st1 = sent st /\
  fst (getAuthToken env st1) = Ret None /\
  fst (getRefreshToken env st1) = Ret None /\
  (if has_window env && storage_access env
   then localStorage st1 !! ACCESS_KEY = None /\ localStorage st1 !! REFRESH_KEY = None
   else localStorage st1 = localStorage st) /\
  fst (logout env st1) = Ret tt /\
  localStorage st2 = localStorage st1 /\
  sent st2 = sent st.
Proof.
  unfold logout.
  destruct (clearAuthTokens_run env st) as (st1 & Hrun1 & Hsent1 & Hls1).
  destruct (clearAuthTokens_run env st1) as (st2 & Hrun2 & Hsent2 & Hls2).
  destruct (clearAuthTokens_hides _ _ _ _ Hrun1) as [Ha Hr].
  rewrite Hrun1. cbn [fst snd]. rewrite Hrun2. cbn [fst snd].
  rewrite getAuthToken_run, getRefreshToken_run. cbn [fst].
  rewrite Ha, Hr. repeat split; try assumption.
  - unfold visible in Ha, Hr.
    destruct (has_window env && storage_access env); [now split | assumption].
  - rewrite Hls2, Hls1.
    destruct (has_window env && storage_access env); [| reflexivity].
    apply map_eq. intros k. rewrite !lookup_delete.
    repeat case_decide; reflexivity.
  - congruence.
Qed.

(** ** getCurrentUser and refreshToken without a token *)

(** C8.  When [getAuthToken] has no token to give, [getCurrentUser] returns
    null and the state is the one it started in: no request was sent. *)
Theorem getCurrentUser_without_token (env : Env) (st : State) :
  fst (getAuthToken env st) = Ret None ->
  getCurrentUser env st = (Ret None, st).
Proof.
  rewrite getAuthToken_run. cbn [fst]. intros [= Hv].
  unfold getCurrentUser. erewrite run_bind_ret by apply getAuthToken_run.
  now rewrite Hv.
Qed.

Lemma getCurrentUser_without_token_witness :
  getCurrentUser (browser offline) empty_store = (Ret None, empty_store).
Proof.
  apply (getCurrentUser_without_token (browser offline) empty_store). reflexivity.
Defined.

(** C9.  When [getRefreshToken] has no token to give, [refreshToken] throws
    "No refresh token available" and the state is the one it started in: no
    request was sent. *)
Theorem refreshToken_without_token (env : Env) (st : State) :
  fst (getRefreshToken env st) = Ret None ->
  refreshToken env st = (Throw (Err (Error "No refresh token available")), st).
Proof.
  rewrite getRefreshToken_run. cbn [fst]. intros [= Hv].
  unfold refreshToken. erewrite run_bind_ret by apply getRefreshToken_run.
  now rewrite Hv.
Qed.

Lemma refreshToken_without_token_witness :
  refreshToken (browser offline) empty_store
  = (Throw (Err (Error "No refresh token available")), empty_store).
Proof.
  apply (refreshToken_without_token (browser offline) empty_store). reflexivity.
Defined.

(** ** handleResponse *)

Lemma includes_nonempty ct : includes "application/json" ct = true -> ct <> "".
Proof. intros H ->. discriminate. Qed.

(** Outside 2xx, a body that parses is raised as the error's data. *)
Lemma handleResponse_error_json r p j :
  ok r = false -> resp_body r = Some p -> parsed p = Some j ->
  handleResponse r = Throw (api_error r j).
Proof.
  intros Hok Hb Hp. unfold handleResponse, Response_json. now rewrite Hok, Hb, Hp.
Qed.

(** Outside 2xx, a null body is raised as the empty text. *)
Lemma handleResponse_error_null r :
  ok r = false -> resp_body r = None ->
  handleResponse r = Throw (api_error r (JStr "")).
Proof.
  intros Hok Hb. unfold handleResponse, Response_json, Response_text.
  now rewrite Hok, Hb.
Qed.

(** Outside 2xx, a body that does not parse has been consumed by [json()]
    when [text()] is called: the [TypeError] of the second read is what
    [handleResponse] throws, and the error with the status is lost. *)
Lemma handleResponse_error_unparsable r p :
  ok r = false -> resp_body r = Some p -> parsed p = None ->
  handleResponse r = Throw TypeError_body_used.
Proof.
  intros Hok Hb Hp. unfold handleResponse, Response_json, Response_text.
  now rewrite Hok, Hb, Hp.
Qed.

(** Inside 2xx, a declared JSON content type gives the parsed body. *)
Lemma handleResponse_ok_json r p j :
  ok r = true -> declares_json r = true -> resp_body r = Some p -> parsed p = Some j ->
  handleResponse r = Ret j.
Proof.
  unfold declares_json. intros Hok Hct Hb Hp.
  destruct (resp_contentType r) as [ct |] eqn:Ect; [| discriminate].
  unfold handleResponse, Response_json. rewrite Hok, Ect, Hct, Hb, Hp.
  destruct ct; [discriminate | reflexivity].
Qed.

(** Inside 2xx, any other content type gives the raw text. *)
Lemma handleResponse_ok_text r :
  ok r = true -> declares_json r = false ->
  handleResponse r =
    Ret (JStr (match resp_body r with Some p => text p | None => "" end)).
Proof.
  unfold declares_json. intros Hok Hct.
  unfold handleResponse, Response_text. rewrite Hok. cbn [negb].
  destruct (resp_contentType r) as [ct |].
  - rewrite Hct, andb_false_r. now destruct (resp_body r).
  - now destruct (resp_body r).
Qed.

(** C4, at a non-2xx response whose body is not JSON.  [handleResponse]
    throws the [TypeError] of reading a consumed body: an error with no
    status, no status text and no data, not the error carrying 502, "Bad
    Gateway" and the page text. *)
Theorem handleResponse_loses_text_fallback :
  handleResponse bad_gateway = Throw TypeError_body_used /\
  handleResponse bad_gateway
    <> Throw (api_error bad_gateway (JStr "<html>502 Bad Gateway</html>")) /\
  (exists e, handleResponse bad_gateway = Throw (Err e) /\
             status e = None /\ statusText e = None /\ data e = None).
Proof.
  assert (H : handleResponse bad_gateway = Throw TypeError_body_used)
    by (now apply (handleResponse_error_unparsable _
                     {| text := "<html>502 Bad Gateway</html>"; parsed := None |})).
  rewrite H. split; [reflexivity |]. split; [discriminate |].
  eexists. split; [reflexivity |]. now repeat split.
Qed.

(** ** apiClient against a server that answers *)

Lemma getDefaultHeaders_run env st :
  exists hs, getDefaultHeaders env st = (Ret hs, st).
Proof.
  unfold getDefaultHeaders. eexists.
  erewrite run_bind_ret by apply getStoredAuthToken_run. reflexivity.
Qed.

Lemma apiClient_answered env endpoint options st r :
  reaches env endpoint ->
  params options = None ->
  answers env (default "GET" (method options)) endpoint r ->
  exists q, apiClient env endpoint options st = (handleResponse r, sending st q).
Proof.
  intros (base & Hbase & Hurl) Hparams Hnet.
  destruct (getDefaultHeaders_run env st) as (hs & Hhs).
  unfold apiClient, buildUrl. rewrite Hparams, Hbase. cbn [mbind Outcome_bind].
  rewrite Hurl. eexists.
  erewrite run_bind_ret by reflexivity.
  erewrite run_bind_ret by exact Hhs.
  erewrite run_bind_ret; [reflexivity |].
  apply run_try_ret. unfold fetch.
  erewrite Hnet; reflexivity.
Qed.

(** ** getCurrentUser on a 401 *)

(** C1, at a 401 with the JSON body of the CMS, and at a 401 with a line of
    text.  [getCurrentUser] sends its one request; its [catch] then
    evaluates [error instanceof ApiError] and throws: the caller gets that
    [TypeError], not null, and both tokens are still in the store. *)
Theorem getCurrentUser_401_throws_and_keeps_tokens :
  (let env := browser (always token_expired) in
   let run := getCurrentUser env signed_in in
   fst run = Throw TypeError_instanceof /\
   length (sent (snd run)) = 1%nat /\
   localStorage (snd run) !! ACCESS_KEY = Some "A0" /\
   localStorage (snd run) !! REFRESH_KEY = Some "R0" /\
   fst (isAuthenticated env (snd run)) = Ret true) /\
  (let env := browser proxy_401 in
   let run := getCurrentUser env signed_in in
   fst run = Throw TypeError_instanceof /\
   length (sent (snd run)) = 1%nat /\
   localStorage (snd run) !! ACCESS_KEY = Some "A0" /\
   localStorage (snd run) !! REFRESH_KEY = Some "R0" /\
   fst (isAuthenticated env (snd run)) = Ret true).
Proof. vm_compute. repeat split. Qed.

(** ** refreshToken on failure *)

(** With an access token but no refresh token in the store, [refreshToken]
    fails at its guard, outside the [try]: the access token stays. *)
Lemma refresh_failure_can_keep_access_token : ~ every_refresh_failure_clears.
Proof.
  intros H.
  assert (Hrun : refreshToken (browser offline) (holding (<[ACCESS_KEY := "A0"]> ∅))
                 = (Throw (Err (Error "No refresh token available")),
                    holding (<[ACCESS_KEY := "A0"]> ∅)))
    by (vm_compute; reflexivity).
  destruct (H _ _ _ _ Hrun) as [Ha _].
  vm_compute in Ha. discriminate.
Qed.

(** [extractErrorMessage] starts with [error instanceof ApiError]: it
    throws that [TypeError] for every argument. *)
Lemma extractErrorMessage_run error :
  extractErrorMessage error = Throw TypeError_instanceof.
Proof. reflexivity. Qed.

(** C5, amended.  A failing [refreshToken] is one of two things.  Either no
    refresh token (or an empty one) was stored: it throws "No refresh token
    available" at once and the state, stored tokens included, is untouched.
    Or a refresh token was stored: then whatever went wrong after that (no
    configured URL, a request that does not get through, a non-2xx reply, a
    reply that cannot be used), both tokens have been cleared when it
    throws. *)
Theorem refreshToken_failure (env : Env) (st : State) (t : Thrown) (st' : State) :
  refreshToken env st = (Throw t, st') ->
  (nonempty (visible env st REFRESH_KEY) = false /\
   st' = st /\ t = Err (Error "No refresh token available"))
  \/
  (nonempty (visible env st REFRESH_KEY) = true /\
   fst (getAuthToken env st') = Ret None /\
   fst (getRefreshToken env st') = Ret None /\
   localStorage st' !! ACCESS_KEY = None /\
   localStorage st' !! REFRESH_KEY = None).
Proof.
  unfold refreshToken. erewrite run_bind_ret by apply getRefreshToken_run.
  destruct (visible env st REFRESH_KEY) as [tok |] eqn:Hv.
  2:{ intros [= <- <-]. left. now repeat split. }
  destruct (nonempty (Some tok)) eqn:Hne; cbn [negb].
  2:{ intros [= <- <-]. left. now repeat split. }
  intros Hrun. right. split; [reflexivity |].
  apply try_catch_throws_from_handler in Hrun as (t0 & st0 & _ & Hh).
  destruct (clearAuthTokens_run env st0) as (st1 & Hclear & _ & Hls).
  erewrite run_bind_ret in Hh by exact Hclear.
  assert (Hst : st' = st1).
  { unfold mbind, M_bind, lift, throw in Hh.
    rewrite extractErrorMessage_run in Hh. now injection Hh as _ <-. }
  subst st'.
  destruct (clearAuthTokens_hides _ _ _ _ Hclear) as [Ha Hr].
  rewrite getAuthToken_run, getRefreshToken_run. cbn [fst]. rewrite Ha, Hr.
  assert (Hon : has_window env && storage_access env = true).
  { unfold visible in Hv. now destruct (has_window env && storage_access env). }
  unfold visible in Ha, Hr. rewrite Hon in Ha, Hr. now repeat split.
Qed.

(** Offline, with both tokens stored: the request is sent, fails, and the
    store is empty when [refreshToken] throws. *)
Lemma refreshToken_failure_witness :
  let st' := snd (refreshToken (browser offline) signed_in) in
  refreshToken (browser offline) signed_in = (Throw TypeError_instanceof, st') /\
  length (sent st') = 1%nat /\
  fst (getAuthToken (browser offline) st') = Ret None /\
  fst (getRefreshToken (browser offline) st') = Ret None.
Proof.
  cbv zeta.
  assert (Hrun : refreshToken (browser offline) signed_in
                 = (Throw TypeError_instanceof,
                    snd (refreshToken (browser offline) signed_in)))
    by (vm_compute; reflexivity).
  split; [exact Hrun |]. split; [vm_compute; reflexivity |].
  destruct (refreshToken_failure (browser offline) signed_in _ _ Hrun)
    as [(Hnone & _) | (_ & Ha & Hr & _)].
  - vm_compute in Hnone. discriminate.
  - split; [exact Ha | exact Hr].
Defined.

(** ** The token pair *)

(** After a login whose reply has no refresh token the store holds exactly
    one of the two tokens; [isAuthenticated] answers true and
    [getCurrentUser] fetches and returns the user. *)
Lemma one_token_counts_as_authenticated :
  let env := browser access_only_cms in
  let run := login env credentials empty_store in
  (exists user, fst run = Ret user) /\
  fst (getAuthToken env (snd run)) = Ret (Some "T1") /\
  fst (getRefreshToken env (snd run)) = Ret None /\
  fst (isAuthenticated env (snd run)) = Ret true /\
  (exists user, fst (getCurrentUser env (snd run)) = Ret (Some user)).
Proof. vm_compute. repeat split; eexists; reflexivity. Qed.

Lemma setItem_other env k k' v st :
  k <> k' -> localStorage (snd (setItem env k v st)) !! k' = localStorage st !! k'.
Proof.
  intros Hk. unfold setItem.
  destruct (storage_access env), (storage_room env); cbn; try reflexivity.
  now apply lookup_insert_ne.
Qed.

(** C3, amended.  Nothing ties the two tokens together.  [isAuthenticated]
    is true exactly when [getAuthToken] has a token to give and does not
    look at the refresh token; storing a refresh token does not change the
    access token that can be read, and storing an access token does not
    change the refresh token that can be read.  So a store holding only the
    access token counts as authenticated, and one holding only the refresh
    token as unauthenticated. *)
Theorem isAuthenticated_reads_access_token_only (env : Env) (st : State) (t : string) :
  isAuthenticated env st
    = (Ret (match visible env st ACCESS_KEY with Some _ => true | None => false end), st) /\
  fst (getAuthToken env st) = Ret (visible env st ACCESS_KEY) /\
  visible env (snd (setRefreshToken env t st)) ACCESS_KEY = visible env st ACCESS_KEY /\
  visible env (snd (setAuthToken env t st)) REFRESH_KEY = visible env st REFRESH_KEY.
Proof.
  repeat split.
  - unfold isAuthenticated. erewrite run_bind_ret by apply getAuthToken_run. reflexivity.
  - now rewrite getAuthToken_run.
  - unfold visible, setRefreshToken, try_catch.
    destruct (has_window env); [| reflexivity]. cbn [andb].
    destruct (storage_access env) eqn:Ha; [| reflexivity].
    pose proof (setItem_other env REFRESH_KEY ACCESS_KEY t st) as Hs.
    destruct (setItem env REFRESH_KEY t st) as [[[] | e |] st1] eqn:Hrun;
      cbn [snd] in *; apply Hs; discriminate.
  - unfold visible, setAuthToken, try_catch.
    destruct (has_window env); [| reflexivity]. cbn [andb].
    destruct (storage_access env) eqn:Ha; [| reflexivity].
    pose proof (setItem_other env ACCESS_KEY REFRESH_KEY t st) as Hs.
    destruct (setItem env ACCESS_KEY t st) as [[[] | e |] st1] eqn:Hrun;
      cbn [snd] in *; apply Hs; discriminate.
Qed.

(** ** login *)

Lemma json_reply_handled r j : json_reply r j -> handleResponse r = Ret j.
Proof.
  intros (Hok & Hct & p & Hb & Hp). eapply handleResponse_ok_json; eassumption.
Qed.

Lemma nonempty_Some s : s <> "" -> nonempty (Some s) = true.
Proof. intros H. cbn. now destruct (String.eqb_spec s ""). Qed.

Lemma store_tokens_run env st tokens a r :
  has_window env = true -> storage_access env = true -> storage_room env = true ->
  assoc "access_token" tokens = Some (JStr a) -> a <> "" ->
  assoc "refresh_token" tokens = Some (JStr r) -> r <> "" ->
  store_tokens env (JObj [("data", JObj tokens)]) st
  = (Ret tt, {| localStorage := <[REFRESH_KEY := r]> (<[ACCESS_KEY := a]> (localStorage st));
                sent := sent st; console := console st |}).
Proof.
  intros Hw Ha Hr Hat Hane Hrt Hrne.
  apply nonempty_Some in Hane, Hrne. cbn in Hane, Hrne.
  assert (Hd : member (Some (JObj [("data", JObj tokens)])) "data"
               = Ret (Some (JObj tokens))) by reflexivity.
  unfold store_tokens. rewrite Hd.
  erewrite run_bind_ret by reflexivity.
  cbn [opt_member prop]. rewrite Hat. cbn [truthy]. rewrite Hane.
  cbn [when js_String of_option].
  erewrite run_bind_ret.
  2:{ erewrite run_bind_ret by reflexivity. apply setAuthToken_run; assumption. }
  erewrite run_bind_ret by reflexivity.
  cbn [opt_member prop]. rewrite Hrt. cbn [truthy]. rewrite Hrne.
  cbn [when js_String of_option].
  erewrite run_bind_ret by reflexivity.
  now rewrite setRefreshToken_run.
Qed.

Lemma user_of_data profile :
  user_of (JObj [("data", JObj profile)])
  = Ret {| user_id := assoc "id" profile;
           user_email := assoc "email" profile;
           user_firstName := assoc "first_name" profile;
           user_lastName := assoc "last_name" profile;
           user_role := assoc "role" profile;
           user_status := assoc "status" profile |}.
Proof. reflexivity. Qed.

(** C6.  In a browser with working storage and a reachable CMS: when the
    login endpoint answers with data holding a non-empty access token [a]
    and a non-empty refresh token [r], and [/users/me] then answers with the
    user record, [login] returns the user with the id and email of that
    record (and its other fields), after two requests, and the store holds
    [a] and [r]. *)
Theorem login_stores_tokens_and_returns_user
    (env : Env) (creds : LoginCredentials) (st : State)
    (r1 r2 : Response) (tokens profile : list (string * Json)) (a r : string) :
  has_window env = true -> storage_access env = true -> storage_room env = true ->
  reaches env "/auth/login" -> reaches env "/users/me" ->
  answers env "POST" "/auth/login" r1 ->
  answers env "GET" "/users/me" r2 ->
  json_reply r1 (JObj [("data", JObj tokens)]) ->
  assoc "access_token" tokens = Some (JStr a) -> a <> "" ->
  assoc "refresh_token" tokens = Some (JStr r) -> r <> "" ->
  json_reply r2 (JObj [("data", JObj profile)]) ->
  exists st',
    login env creds st
    = (Ret {| user_id := assoc "id" profile;
              user_email := assoc "email" profile;
              user_firstName := assoc "first_name" profile;
              user_lastName := assoc "last_name" profile;
              user_role := assoc "role" profile;
              user_status := assoc "status" profile |}, st') /\
    localStorage st' !! ACCESS_KEY = Some a /\
    localStorage st' !! REFRESH_KEY = Some r /\
    fst (getAuthToken env st') = Ret (Some a) /\
    fst (getRefreshToken env st') = Ret (Some r) /\
    length (sent st') = (length (sent st) + 2)%nat.
Proof.
  intros Hw Ha Hr Hreach1 Hreach2 Hnet1 Hnet2 Hj1 Hat Hane Hrt Hrne Hj2.
  destruct (apiClient_answered env "/auth/login"
              {| method := Some "POST"; params := None;
                 body := Some (JObj [("email", JStr (email creds));
                                     ("password", JStr (password creds))]);
                 headers := [] |} st r1 Hreach1 eq_refl Hnet1) as (q1 & Hpost).
  rewrite (json_reply_handled _ _ Hj1) in Hpost.
  pose proof (store_tokens_run env (sending st q1) tokens a r Hw Ha Hr Hat Hane Hrt Hrne)
    as Hstore.
  set (st1 := {| localStorage := <[REFRESH_KEY := r]> (<[ACCESS_KEY := a]> (localStorage (sending st q1)));
                 sent := sent (sending st q1); console := console (sending st q1) |}) in *.
  destruct (apiClient_answered env "/users/me"
              {| method := Some "GET"; params := None; body := None; headers := [] |}
              st1 r2 Hreach2 eq_refl Hnet2) as (q2 & Hget).
  rewrite (json_reply_handled _ _ Hj2) in Hget.
  exists (sending st1 q2). split.
  - unfold login. apply run_try_ret.
    erewrite run_bind_ret by exact Hpost.
    erewrite run_bind_ret by exact Hstore.
    erewrite run_bind_ret by exact Hget.
    unfold lift. now rewrite user_of_data.
  - rewrite getAuthToken_run, getRefreshToken_run. unfold visible. rewrite Hw, Ha.
    cbn [andb fst sending st1 localStorage sent].
    rewrite lookup_insert_eq.
    rewrite lookup_insert_ne by (symmetry; apply keys_differ).
    rewrite lookup_insert_eq.
    repeat split; try reflexivity.
    rewrite !length_app. cbn. lia.
Qed.

Lemma routes_answers_login r1 r2 :
  answers (browser (routes r1 r2)) "POST" "/auth/login" r1.
Proof. intros h q base query _ Hurl. cbn. unfold routes. now rewrite Hurl. Qed.

Lemma browser_reaches net endpoint : reaches (browser net) endpoint.
Proof. eexists. split; reflexivity. Qed.

Lemma login_stores_tokens_and_returns_user_witness :
  exists st',
    login (browser scenario_cms) credentials empty_store
    = (Ret {| user_id := Some (JStr "1");
              user_email := Some (JStr "a@b.com");
              user_firstName := None; user_lastName := None;
              user_role := None; user_status := None |}, st') /\
    localStorage st' !! ACCESS_KEY = Some "T1" /\
    localStorage st' !! REFRESH_KEY = Some "R1" /\
    fst (getAuthToken (browser scenario_cms) st') = Ret (Some "T1") /\
    fst (getRefreshToken (browser scenario_cms) st') = Ret (Some "R1") /\
    length (sent st') = 2%nat.
Proof.
  apply (login_stores_tokens_and_returns_user
           (browser scenario_cms) credentials empty_store
           scenario_login_reply scenario_me_reply
           [("access_token", JStr "T1"); ("refresh_token", JStr "R1")]
           [("id", JStr "1"); ("email", JStr "a@b.com")] "T1" "R1").
  - reflexivity.
  - reflexivity.
  - reflexivity.
  - eexists. split; reflexivity.
  - eexists. split; reflexivity.
  - intros h q base query _ Hurl. cbn. unfold scenario_cms, routes. now rewrite Hurl.
  - intros h q base query _ Hurl. cbn. unfold scenario_cms, routes. now rewrite Hurl.
  - repeat split. eexists. split; reflexivity.
  - reflexivity.
  - discriminate.
  - reflexivity.
  - discriminate.
  - repeat split. eexists. split; reflexivity.
Defined.

(** ** The message of a failed login *)

Lemma login_post_throws env creds st t st1 :
  api_post env "/auth/login"
    (JObj [("email", JStr (email creds)); ("password", JStr (password creds))]) st
  = (Throw t, st1) ->
  login env creds st
  = (errorMessage ← lift (extractErrorMessage t);
     e ← lift (new_Error errorMessage);
     throw (Err e)) st1.
Proof.
  intros Hpost. unfold login.
  erewrite run_try_throw by (apply run_bind_throw; exact Hpost). reflexivity.
Qed.

(** C2, at a refused login.  The CMS answers 401 with
    {errors:[{message:"Invalid credentials"}]}, and in a second run 403
    with an empty object.  [login] catches the error that carries the
    status and the body, and [extractErrorMessage] throws at [error
    instanceof ApiError]: what [login] throws is that [TypeError], neither
    "Invalid credentials" nor the message for status 403. *)
Theorem login_loses_the_error_message :
  (let run := login (browser (routes invalid_credentials invalid_credentials))
                    credentials empty_store in
   fst run = Throw TypeError_instanceof /\
   fst run <> Throw (Err (Error "Invalid credentials")) /\
   length (sent (snd run)) = 1%nat) /\
  (let run := login (browser (routes forbidden forbidden)) credentials empty_store in
   fst run = Throw TypeError_instanceof /\
   fst run <> Throw (Err (Error "Access forbidden")) /\
   length (sent (snd run)) = 1%nat).
Proof. vm_compute. repeat split; discriminate. Qed.

(** * Further properties of the code *)

(** ** Base URL and headers *)

(** X1.  [strip_trailing_slash] undoes exactly one appended slash, and
    whatever it returns is its argument or its argument less one final
    slash. *)
Theorem strip_trailing_slash_one_slash (s : string) :
  strip_trailing_slash (s +:+ "/") = s /\
  (strip_trailing_slash s = s \/ s = strip_trailing_slash s +:+ "/").
Proof.
  split.
  - induction s as [| c s IH]; [reflexivity |].
    assert (E : exists c' s', s +:+ "/" = String c' s')
      by (destruct s; cbn; eauto).
    destruct E as (c' & s' & E).
    change (strip_trailing_slash (String c (s +:+ "/")) = String c s).
    rewrite E.
    change (String c (strip_trailing_slash (String c' s')) = String c s).
    now rewrite <- E, IH.
  - induction s as [| c s IH]; [now left |].
    destruct s as [| c' s'].
    + change (strip_trailing_slash (String c "")) with
        (if String.eqb (String c "") "/" then "" else String c "").
      destruct (String.eqb_spec (String c "") "/") as [-> | _]; [now right | now left].
    + change (strip_trailing_slash (String c (String c' s'))) with
        (String c (strip_trailing_slash (String c' s'))).
      destruct IH as [IH | IH].
      * left. now rewrite IH.
      * right.
        change (String c (String c' s')
                = String c (strip_trailing_slash (String c' s') +:+ "/")).
        f_equal. exact IH.
Qed.

Lemma header_set_header_eq k v hs : header k (set_header k v hs) = Some v.
Proof.
  induction hs as [| [k' v'] hs IH]; cbn.
  - now rewrite String.eqb_refl.
  - destruct (String.eqb k k') eqn:E; cbn.
    + now rewrite String.eqb_refl.
    + now rewrite E.
Qed.

Lemma header_set_header_ne k k' v hs :
  k <> k' -> header k' (set_header k v hs) = header k' hs.
Proof.
  intros Hne. induction hs as [| [k0 v0] hs IH]; cbn.
  - destruct (String.eqb_spec k' k); [congruence | reflexivity].
  - destruct (String.eqb_spec k k0) as [-> | Hk]; cbn.
    + destruct (String.eqb_spec k' k0); [congruence | reflexivity].
    + destruct (String.eqb k' k0); [reflexivity | exact IH].
Qed.

(** The default headers: read without touching the state. *)
Lemma getDefaultHeaders_headers env st :
  exists hs,
    getDefaultHeaders env st = (Ret hs, st) /\
    header "Content-Type" hs = Some "application/json" /\
    header "Authorization" hs = bearer (visible env st ACCESS_KEY).
Proof.
  unfold getDefaultHeaders.
  erewrite run_bind_ret by apply getStoredAuthToken_run.
  eexists. split; [reflexivity |].
  set (with_token := match visible env st ACCESS_KEY with
                     | Some t => if nonempty (visible env st ACCESS_KEY)
                                 then set_header "Authorization" ("Bearer " +:+ t)
                                        [("Content-Type", "application/json")]
                                 else [("Content-Type", "application/json")]
                     | None => [("Content-Type", "application/json")]
                     end).
  assert (Hct : header "Content-Type" with_token = Some "application/json"
                /\ header "Authorization" with_token = bearer (visible env st ACCESS_KEY)).
  { unfold with_token, bearer. destruct (visible env st ACCESS_KEY) as [t |]; [| now split].
    cbn [nonempty]. destruct (String.eqb t ""); now split. }
  destruct Hct as [Hct Hauth].
  destruct (process env) as [p |]; [| now split].
  destruct (NEXT_PUBLIC_API_KEY p) as [key |]; [| now split].
  destruct (has_window env && nonempty (Some key)); [| now split].
  rewrite !header_set_header_ne by discriminate. now split.
Qed.

(** What [apiClient] does, step by step: no URL, no request; otherwise one
    request, and the outcome is that of [handleResponse] or the wrapped
    rejection. *)
Lemma apiClient_run env endpoint options st :
  match buildUrl env endpoint (params options) with
  | Ret url =>
      exists hs,
        getDefaultHeaders env st = (Ret hs, st) /\
        let q := {| req_url := url;
                    req_method := default "GET" (method options);
                    req_headers := spread hs (headers options);
                    req_body := if truthy (body options) then body options else None |} in
        apiClient env endpoint options st =
          match network env (sent st) q with
          | Resolve r => (handleResponse r, sending st q)
          | Reject (Err e) =>
              (Throw (match status e with
                      | Some _ => Err e
                      | None => Err (Error ("Network error: " +:+ message e))
                      end), sending st q)
          | Reject (NonErr _) =>
              (Throw (Err (Error "Network error: Unknown error")), sending st q)
          end
  | Throw t => apiClient env endpoint options st = (Throw t, st)
  | Unmodelled => apiClient env endpoint options st = (Unmodelled, st)
  end.
Proof.
  unfold apiClient.
  destruct (buildUrl env endpoint (params options)) as [url | t |] eqn:Hurl;
    try reflexivity.
  destruct (getDefaultHeaders_run env st) as (hs & Hhs).
  exists hs. split; [exact Hhs |]. cbv zeta.
  erewrite run_bind_ret by reflexivity.
  erewrite run_bind_ret by exact Hhs.
  unfold mbind, M_bind, try_catch, fetch, lift, throw, sending.
  destruct (network env (sent st) _) as [r | [e | v]]; try reflexivity.
  now destruct (status e).
Qed.

(** X2.  Without a base URL every call of [apiClient] fails at once with
    the configuration error: nothing is sent and the state is untouched. *)
Theorem apiClient_unconfigured_fails_fast
    (env : Env) (endpoint : string) (options : RequestOptions) (st : State) :
  unconfigured env ->
  apiClient env endpoint options st = (Throw base_url_not_set, st).
Proof.
  intros Hun.
  assert (Hbase : getApiBaseUrl env = Throw base_url_not_set).
  { unfold getApiBaseUrl. destruct (process env) as [p |] eqn:Hp; [| reflexivity].
    destruct (Hun p Hp) as [Hd Hl]. rewrite Hd.
    destruct (NEXT_PUBLIC_API_BASE_URL p); [now rewrite Hl | reflexivity]. }
  pose proof (apiClient_run env endpoint options st) as Hrun.
  unfold buildUrl in Hrun. rewrite Hbase in Hrun. exact Hrun.
Qed.

Lemma apiClient_unconfigured_fails_fast_witness :
  api_get no_process "/users/me" signed_in = (Throw base_url_not_set, signed_in).
Proof.
  apply (apiClient_unconfigured_fails_fast no_process). intros p Hp. discriminate.
Defined.

(** ** apiClient: what it sends and what it leaves alone *)

Lemma buildUrl_shape env endpoint ps url :
  buildUrl env endpoint ps = Ret url ->
  exists base query, getApiBaseUrl env = Ret base /\ url = URL_new endpoint base query.
Proof.
  unfold buildUrl. destruct (getApiBaseUrl env) as [base | |]; try discriminate.
  cbn [mbind Outcome_bind]. destruct (URL_accepts env endpoint base); try discriminate.
  destruct ps as [l |].
  - destruct (query_of l) as [q | |]; try discriminate.
    cbn [mbind Outcome_bind]. intros [= <-]. eauto.
  - intros [= <-]. eauto.
Qed.

Lemma handleResponse_modelled r : handleResponse r <> Unmodelled.
Proof.
  unfold handleResponse, Response_json, Response_text.
  destruct (ok r); cbn [negb].
  - destruct (resp_contentType r) as [ct |].
    + destruct (negb (String.eqb ct "") && includes "application/json" ct);
        destruct (resp_body r) as [p |]; cbn; try discriminate.
      destruct (parsed p); discriminate.
    + destruct (resp_body r); discriminate.
  - destruct (resp_body r) as [p |]; cbn; try discriminate.
    destruct (parsed p); discriminate.
Qed.

(** X3.  [apiClient] never writes to [localStorage] or to the console, and
    it sends at most one request: either nothing was sent, and then it did
    not return a result, or exactly one request was added to those sent. *)
Theorem apiClient_leaves_the_store
    (env : Env) (endpoint : string) (options : RequestOptions) (st : State) :
  let run := apiClient env endpoint options st in
  localStorage (snd run) = localStorage st /\
  console (snd run) = console st /\
  ((sent (snd run) = sent st /\ forall j, fst run <> Ret j) \/
   exists q, sent (snd run) = (sent st ++ [q])%list).
Proof.
  cbv zeta. pose proof (apiClient_run env endpoint options st) as Hrun.
  destruct (buildUrl env endpoint (params options)) as [url | t |].
  - destruct Hrun as (hs & _ & ->).
    destruct (network env (sent st) _) as [r | [e | v]];
      cbn [fst snd sending localStorage console sent]; repeat split; eauto.
  - rewrite Hrun. cbn. repeat split. left. split; [reflexivity | discriminate].
  - rewrite Hrun. cbn. repeat split. left. split; [reflexivity | discriminate].
Qed.

(** X4.  The request [apiClient] sends, when the caller passes no headers
    of its own: the method asked for (GET by default), the endpoint
    resolved against the configured base URL, the body only if it is
    truthy, a JSON content type, and [Authorization: Bearer <token>]
    exactly when a non-empty access token is stored. *)
Theorem apiClient_request
    (env : Env) (endpoint : string) (options : RequestOptions) (st : State)
    (q : Request) :
  sent (snd (apiClient env endpoint options st)) = (sent st ++ [q])%list ->
  headers options = [] ->
  req_method q = default "GET" (method options) /\
  (exists base query,
      getApiBaseUrl env = Ret base /\ req_url q = URL_new endpoint base query) /\
  req_body q = (if truthy (body options) then body options else None) /\
  header "Content-Type" (req_headers q) = Some "application/json" /\
  header "Authorization" (req_headers q) = bearer (visible env st ACCESS_KEY).
Proof.
  intros Hsent Hcustom.
  pose proof (apiClient_run env endpoint options st) as Hrun.
  destruct (buildUrl env endpoint (params options)) as [url | t |] eqn:Hurl.
  - destruct Hrun as (hs & Hhs & Hrun). cbv zeta in Hrun.
    destruct (getDefaultHeaders_headers env st) as (hs' & Hhs' & Hct & Hauth).
    rewrite Hhs in Hhs'. injection Hhs' as <-.
    rewrite Hrun in Hsent.
    assert (Hq : sent (sending st
                   {| req_url := url;
                      req_method := default "GET" (method options);
                      req_headers := spread hs (headers options);
                      req_body := if truthy (body options) then body options else None |})
                 = (sent st ++ [q])%list)
      by (destruct (network env (sent st) _) as [r | [e | v]]; exact Hsent).
    cbn [sent sending] in Hq. apply app_inv_head in Hq. injection Hq as <-.
    cbn [req_method req_url req_body req_headers]. rewrite Hcustom.
    cbn [spread fold_left]. repeat split; try assumption.
    now apply buildUrl_shape in Hurl.
  - rewrite Hrun in Hsent. cbn [snd] in Hsent.
    apply (f_equal (@length Request)) in Hsent. rewrite length_app in Hsent.
    cbn in Hsent. lia.
  - rewrite Hrun in Hsent. cbn [snd] in Hsent.
    apply (f_equal (@length Request)) in Hsent. rewrite length_app in Hsent.
    cbn in Hsent. lia.
Qed.

Lemma apiClient_request_witness :
  let q := {| req_url := URL_new "/users/me" "https://cms.example.com" [];
              req_method := "GET";
              req_headers := [("Content-Type", "application/json");
                              ("Authorization", "Bearer A0")];
              req_body := None |} in
  sent (snd (api_get (browser offline) "/users/me" signed_in)) = [q] /\
  header "Authorization" (req_headers q) = Some "Bearer A0".
Proof.
  cbv zeta. split; [vm_compute; reflexivity |].
  refine (proj2 (proj2 (proj2 (proj2
    (apiClient_request (browser offline) "/users/me"
       {| method := Some "GET"; params := None; body := None; headers := [] |}
       signed_in _ _ eq_refl))))).
  vm_compute. reflexivity.
Defined.

(** X5.  When the network is down, [apiClient] sends its request and throws
    a fresh error "Network error: <reason>", which carries a message and
    nothing else: no status, no status text, no data. *)
Theorem apiClient_network_failure
    (env : Env) (endpoint : string) (options : RequestOptions) (st : State)
    (e : JsError) :
  reaches env endpoint ->
  params options = None ->
  unreachable env e ->
  status e = None ->
  exists q,
    apiClient env endpoint options st
    = (Throw (Err {| message := "Network error: " +:+ message e;
                     status := None; statusText := None; data := None |}),
       sending st q).
Proof.
  intros (base & Hbase & Hacc) Hparams Hdown Hstatus.
  pose proof (apiClient_run env endpoint options st) as Hrun.
  unfold buildUrl in Hrun. rewrite Hbase in Hrun. cbn [mbind Outcome_bind] in Hrun.
  rewrite Hacc, Hparams in Hrun. destruct Hrun as (hs & _ & Hrun). cbv zeta in Hrun.
  rewrite Hdown, Hstatus in Hrun. eexists. exact Hrun.
Qed.

Lemma apiClient_network_failure_witness :
  exists q,
    api_get (browser offline) "/users/me" signed_in
    = (Throw (Err (Error "Network error: Failed to fetch")), sending signed_in q).
Proof.
  apply (apiClient_network_failure (browser offline) "/users/me"
           {| method := Some "GET"; params := None; body := None; headers := [] |}
           signed_in (Error "Failed to fetch")).
  - eexists. split; reflexivity.
  - reflexivity.
  - intros h q. reflexivity.
  - reflexivity.
Defined.

(** ** handleResponse *)

(** X6.  [handleResponse] returns a value only for a 2xx response, and the
    value is the parsed body when the content type declares JSON and the raw
    text (empty for a null body) otherwise. *)
Theorem handleResponse_returns_only_2xx (r : Response) (j : Json) :
  handleResponse r = Ret j ->
  ok r = true /\
  ((declares_json r = true /\ exists p, resp_body r = Some p /\ parsed p = Some j) \/
   (declares_json r = false /\
    j = JStr (match resp_body r with Some p => text p | None => "" end))).
Proof.
  intros Hret. destruct (ok r) eqn:Hok.
  - split; [reflexivity |]. destruct (declares_json r) eqn:Hct.
    + left. split; [reflexivity |].
      unfold declares_json in Hct.
      destruct (resp_contentType r) as [ct |] eqn:Ect; [| discriminate].
      unfold handleResponse, Response_json in Hret. rewrite Hok, Ect, Hct in Hret.
      destruct ct; [discriminate |]. cbn in Hret.
      destruct (resp_body r) as [p |]; [| discriminate].
      exists p. split; [reflexivity |].
      cbn in Hret. destruct (parsed p); [| discriminate]. now injection Hret as <-.
    + right. split; [reflexivity |].
      rewrite (handleResponse_ok_text r Hok Hct) in Hret. now injection Hret as <-.
  - exfalso. unfold handleResponse, Response_json, Response_text in Hret.
    rewrite Hok in Hret. cbn [negb] in Hret.
    destruct (resp_body r) as [p |]; cbn in Hret; [| discriminate].
    destruct (parsed p); discriminate.
Qed.

Lemma handleResponse_returns_only_2xx_witness :
  ok scenario_me_reply = true /\ declares_json scenario_me_reply = true.
Proof.
  destruct (handleResponse_returns_only_2xx scenario_me_reply
              (JObj [("data", JObj [("id", JStr "1"); ("email", JStr "a@b.com")])])
              eq_refl) as (Hok & [(Hct & _) | (Hct & _)]).
  - split; [exact Hok | exact Hct].
  - split; [exact Hok | reflexivity].
Defined.

(** X7.  A 2xx response that declares JSON but has no body, or a body that
    does not parse (an empty one, say), makes [handleResponse] throw the
    [SyntaxError] of [json()]: such a success is not returned. *)
Theorem handleResponse_ok_json_without_json (r : Response) :
  ok r = true ->
  declares_json r = true ->
  (resp_body r = None \/ exists p, resp_body r = Some p /\ parsed p = None) ->
  handleResponse r = Throw SyntaxError_json.
Proof.
  unfold declares_json. intros Hok Hct Hbody.
  destruct (resp_contentType r) as [ct |] eqn:Ect; [| discriminate].
  unfold handleResponse, Response_json. rewrite Hok, Ect, Hct.
  destruct ct; [discriminate |]. cbn.
  destruct Hbody as [-> | (p & -> & ->)]; reflexivity.
Qed.

Lemma handleResponse_ok_json_without_json_witness :
  handleResponse {| resp_status := 200; resp_statusText := "OK";
                    resp_contentType := Some "application/json";
                    resp_body := Some {| text := ""; parsed := None |} |}
  = Throw SyntaxError_json.
Proof.
  apply handleResponse_ok_json_without_json; [reflexivity | reflexivity |].
  right. eexists. split; reflexivity.
Defined.

(** ** getCurrentUser *)

Lemma apiClient_leaves_the_store_aux env endpoint st :
  localStorage (snd (api_get env endpoint st)) = localStorage st /\
  (sent (snd (api_get env endpoint st)) = sent st \/
   exists q, sent (snd (api_get env endpoint st)) = (sent st ++ [q])%list).
Proof.
  unfold api_get.
  pose proof (apiClient_run env endpoint
                {| method := Some "GET"; params := None; body := None; headers := [] |} st)
    as Hrun.
  destruct (buildUrl env endpoint _) as [url | t |].
  - destruct Hrun as (hs & _ & ->).
    destruct (network env (sent st) _) as [r | [e | v]]; cbn; eauto.
  - rewrite Hrun. cbn. auto.
  - rewrite Hrun. cbn. auto.
Qed.

Lemma buildUrl_no_params_modelled env endpoint : buildUrl env endpoint None <> Unmodelled.
Proof.
  unfold buildUrl, getApiBaseUrl.
  destruct (process env) as [p |]; cbn.
  - destruct (nonempty (NEXT_PUBLIC_DIRECTUS_URL p)).
    + destruct (NEXT_PUBLIC_DIRECTUS_URL p) as [d |]; cbn; [| discriminate].
      destruct (String.eqb d ""); cbn; [discriminate |].
      destruct (URL_accepts env endpoint _); discriminate.
    + destruct (NEXT_PUBLIC_API_BASE_URL p) as [l |]; cbn; [| discriminate].
      destruct (String.eqb l ""); cbn; [discriminate |].
      destruct (URL_accepts env endpoint _); discriminate.
  - discriminate.
Qed.

Lemma api_get_modelled env endpoint st : fst (api_get env endpoint st) <> Unmodelled.
Proof.
  unfold api_get.
  pose proof (apiClient_run env endpoint
                {| method := Some "GET"; params := None; body := None; headers := [] |} st)
    as Hrun.
  cbn [params] in Hrun.
  destruct (buildUrl env endpoint None) as [url | t |] eqn:Hurl.
  - destruct Hrun as (hs & _ & ->).
    destruct (network env (sent st) _) as [r | [e | v]]; cbn [fst]; try discriminate.
    apply handleResponse_modelled.
  - rewrite Hrun. discriminate.
  - now apply buildUrl_no_params_modelled in Hurl.
Qed.

Lemma user_of_modelled j : user_of j <> Unmodelled.
Proof.
  unfold user_of, member. destruct j; cbn; try discriminate.
  destruct (assoc "data" fields) as [[] |]; discriminate.
Qed.

Lemma getCurrentUser_with_token env st tok :
  visible env st ACCESS_KEY = Some tok -> tok <> "" ->
  getCurrentUser env st
  = try_catch
      (response ← api_get env "/users/me";
       user ← lift (user_of response);
       mret (Some user))
      (fun error =>
         isApiError ← lift (instanceof_ApiError error);
         when (isApiError && match error with
                             | Err e => is_status e 401
                             | NonErr _ => false
                             end) (clearAuthTokens env);;
         mret None) st.
Proof.
  intros Hv Hne. unfold getCurrentUser.
  erewrite run_bind_ret by apply getAuthToken_run.
  rewrite Hv. now rewrite (nonempty_Some tok Hne).
Qed.

(** The [catch] of [getCurrentUser]: it stops at [error instanceof
    ApiError], before [clearAuthTokens] and before [return null]. *)
Lemma getCurrentUser_catch env error st1 :
  (isApiError ← lift (instanceof_ApiError error);
   when (isApiError && match error with
                       | Err e => is_status e 401
                       | NonErr _ => false
                       end) (clearAuthTokens env);;
   mret (@None AuthUser)) st1 = (Throw TypeError_instanceof, st1).
Proof. reflexivity. Qed.

(** [getCurrentUser] from any state: its outcome and what it did to the
    state. *)
Lemma getCurrentUser_outcome (env : Env) (st : State) :
  exists o st',
    getCurrentUser env st = (o, st') /\
    ((exists u, o = Ret u) \/ o = Throw TypeError_instanceof) /\
    localStorage st' = localStorage st /\
    (sent st' = sent st \/ exists q, sent st' = (sent st ++ [q])%list).
Proof.
  assert (Hguard : nonempty (visible env st ACCESS_KEY) = false ->
                   getCurrentUser env st = (Ret None, st)).
  { intros Hn. unfold getCurrentUser.
    erewrite run_bind_ret by apply getAuthToken_run. now rewrite Hn. }
  destruct (visible env st ACCESS_KEY) as [tok |] eqn:Hv.
  2:{ exists (Ret None), st. split; [now apply Hguard |].
      split; [left; now exists None |]. split; [reflexivity | now left]. }
  destruct (String.eqb_spec tok "") as [-> | Hne].
  { exists (Ret None), st. split; [now apply Hguard |].
    split; [left; now exists None |]. split; [reflexivity | now left]. }
  clear Hguard.
  rewrite (getCurrentUser_with_token env st tok Hv Hne).
  pose proof (apiClient_leaves_the_store_aux env "/users/me" st) as (Hls & Hsent).
  pose proof (api_get_modelled env "/users/me" st) as Hmod.
  unfold try_catch at 1. unfold mbind at 1. unfold M_bind at 1.
  destruct (api_get env "/users/me" st) as [[j | t |] st1]; cbn [fst snd] in *.
  - pose proof (user_of_modelled j) as Hu. unfold lift, mbind, M_bind.
    destruct (user_of j) as [u | t |].
    + exists (Ret (Some u)), st1. split; [reflexivity |].
      split; [left; now exists (Some u) |]. now split.
    + exists (Throw TypeError_instanceof), st1. split; [reflexivity |].
      split; [now right |]. now split.
    + congruence.
  - exists (Throw TypeError_instanceof), st1. split; [apply getCurrentUser_catch |].
    split; [now right |]. now split.
  - congruence.
Qed.

(** X8.  [getCurrentUser] never changes [localStorage]: it neither writes
    nor clears a token, whatever the server answers.  It sends at most one
    request, and it either returns (a user or null) or throws the
    [TypeError] of [error instanceof ApiError]. *)
Theorem getCurrentUser_never_touches_the_store (env : Env) (st : State) :
  let run := getCurrentUser env st in
  localStorage (snd run) = localStorage st /\
  ((exists u, fst run = Ret u) \/ fst run = Throw TypeError_instanceof) /\
  (sent (snd run) = sent st \/ exists q, sent (snd run) = (sent st ++ [q])%list).
Proof.
  cbv zeta.
  destruct (getCurrentUser_outcome env st) as (o & st' & Hrun & Ho & Hstore & Hsent).
  rewrite Hrun. cbn [fst snd]. split; [exact Hstore |]. split; [exact Ho | exact Hsent].
Qed.

Lemma handleResponse_error_cases r :
  ok r = false ->
  (exists d, handleResponse r = Throw (api_error r d)) \/
  handleResponse r = Throw TypeError_body_used.
Proof.
  intros Hok. destruct (resp_body r) as [p |] eqn:Hb.
  - destruct (parsed p) as [j |] eqn:Hp.
    + left. exists j. now apply (handleResponse_error_json r p j).
    + right. now apply (handleResponse_error_unparsable r p).
  - left. eexists. now apply handleResponse_error_null.
Qed.

(** [apiClient] against a server that answers, with the headers it sent. *)
Lemma apiClient_answered_with_token env endpoint options st r :
  reaches env endpoint ->
  params options = None ->
  headers options = [] ->
  answers env (default "GET" (method options)) endpoint r ->
  exists q,
    apiClient env endpoint options st = (handleResponse r, sending st q) /\
    header "Authorization" (req_headers q) = bearer (visible env st ACCESS_KEY) /\
    req_body q = (if truthy (body options) then body options else None).
Proof.
  intros (base & Hbase & Hacc) Hparams Hcustom Hnet.
  pose proof (apiClient_run env endpoint options st) as Hrun.
  unfold buildUrl in Hrun. rewrite Hbase in Hrun. cbn [mbind Outcome_bind] in Hrun.
  rewrite Hacc, Hparams in Hrun. destruct Hrun as (hs & Hhs & Hrun). cbv zeta in Hrun.
  destruct (getDefaultHeaders_headers env st) as (hs' & Hhs' & _ & Hauth).
  rewrite Hhs in Hhs'. injection Hhs' as <-.
  erewrite Hnet in Hrun by reflexivity.
  eexists. split; [exact Hrun |]. cbn [req_headers req_body]. rewrite Hcustom.
  split; [exact Hauth | reflexivity].
Qed.

(** X9.  A reply to [/users/me] outside 2xx, with any status (401 too) and
    any body: [getCurrentUser] throws the [TypeError] of [error instanceof
    ApiError] instead of returning null, and the only change to the state
    is the request it sent.  Both tokens stay. *)
Theorem getCurrentUser_throws_on_error_reply
    (env : Env) (st : State) (tok : string) (r : Response) :
  visible env st ACCESS_KEY = Some tok -> tok <> "" ->
  reaches env "/users/me" ->
  answers env "GET" "/users/me" r ->
  ok r = false ->
  exists q, getCurrentUser env st = (Throw TypeError_instanceof, sending st q).
Proof.
  intros Hv Hne Hreach Hnet Hok.
  destruct (apiClient_answered env "/users/me"
              {| method := Some "GET"; params := None; body := None; headers := [] |}
              st r Hreach eq_refl Hnet) as (q & Hrun).
  exists q. rewrite (getCurrentUser_with_token env st tok Hv Hne).
  destruct (handleResponse_error_cases r Hok) as [(d & Hthrow) | Hthrow];
    rewrite Hthrow in Hrun;
    erewrite run_try_throw by (apply run_bind_throw; exact Hrun);
    apply getCurrentUser_catch.
Qed.

Lemma getCurrentUser_throws_on_error_reply_witness :
  exists q,
    getCurrentUser (browser (always token_expired)) signed_in
    = (Throw TypeError_instanceof, sending signed_in q).
Proof.
  apply (getCurrentUser_throws_on_error_reply
           (browser (always token_expired)) signed_in "A0" token_expired).
  - reflexivity.
  - discriminate.
  - eexists. split; reflexivity.
  - intros h q base query _ _. reflexivity.
  - reflexivity.
Defined.

(** X10.  When the network is down [getCurrentUser] throws the [TypeError]
    of [error instanceof ApiError] instead of returning null, and the only
    change to the state is the request it sent.  Both tokens stay. *)
Theorem getCurrentUser_offline
    (env : Env) (st : State) (tok : string) (e : JsError) :
  visible env st ACCESS_KEY = Some tok -> tok <> "" ->
  reaches env "/users/me" ->
  unreachable env e ->
  status e = None ->
  exists q, getCurrentUser env st = (Throw TypeError_instanceof, sending st q).
Proof.
  intros Hv Hne (base & Hbase & Hacc) Hdown Hstatus.
  pose proof (apiClient_run env "/users/me"
                {| method := Some "GET"; params := None; body := None; headers := [] |} st)
    as Hrun.
  unfold buildUrl in Hrun. rewrite Hbase in Hrun. cbn [mbind Outcome_bind params] in Hrun.
  rewrite Hacc in Hrun. destruct Hrun as (hs & _ & Hrun). cbv zeta in Hrun.
  rewrite Hdown, Hstatus in Hrun.
  eexists. rewrite (getCurrentUser_with_token env st tok Hv Hne).
  erewrite run_try_throw by (apply run_bind_throw; exact Hrun).
  apply getCurrentUser_catch.
Qed.

Lemma getCurrentUser_offline_witness :
  exists q,
    getCurrentUser (browser offline) signed_in
    = (Throw TypeError_instanceof, sending signed_in q).
Proof.
  apply (getCurrentUser_offline (browser offline) signed_in "A0" (Error "Failed to fetch")).
  - reflexivity.
  - discriminate.
  - eexists. split; reflexivity.
  - intros h q. reflexivity.
  - reflexivity.
Defined.

(** X11.  With a stored access token and a 2xx JSON reply holding the user
    record, [getCurrentUser] returns that user; its one request carries the
    token as a bearer header, and the store is not touched. *)
Theorem getCurrentUser_returns_user
    (env : Env) (st : State) (tok : string) (r : Response)
    (profile : list (string * Json)) :
  visible env st ACCESS_KEY = Some tok -> tok <> "" ->
  reaches env "/users/me" ->
  answers env "GET" "/users/me" r ->
  json_reply r (JObj [("data", JObj profile)]) ->
  exists q,
    getCurrentUser env st
    = (Ret (Some {| user_id := assoc "id" profile;
                    user_email := assoc "email" profile;
                    user_firstName := assoc "first_name" profile;
                    user_lastName := assoc "last_name" profile;
                    user_role := assoc "role" profile;
                    user_status := assoc "status" profile |}), sending st q) /\
    header "Authorization" (req_headers q) = Some ("Bearer " +:+ tok).
Proof.
  intros Hv Hne Hreach Hnet Hreply.
  destruct (apiClient_answered_with_token env "/users/me"
              {| method := Some "GET"; params := None; body := None; headers := [] |}
              st r Hreach eq_refl eq_refl Hnet) as (q & Hrun & Hauth & _).
  rewrite (json_reply_handled _ _ Hreply) in Hrun.
  exists q. split.
  - rewrite (getCurrentUser_with_token env st tok Hv Hne).
    apply run_try_ret. erewrite run_bind_ret by exact Hrun.
    unfold lift. now rewrite user_of_data.
  - rewrite Hauth, Hv. cbn [bearer].
    now destruct (String.eqb_spec tok "").
Qed.

Lemma getCurrentUser_returns_user_witness :
  exists q,
    getCurrentUser (browser scenario_cms) signed_in
    = (Ret (Some {| user_id := Some (JStr "1");
                    user_email := Some (JStr "a@b.com");
                    user_firstName := None; user_lastName := None;
                    user_role := None; user_status := None |}), sending signed_in q) /\
    header "Authorization" (req_headers q) = Some "Bearer A0".
Proof.
  apply (getCurrentUser_returns_user (browser scenario_cms) signed_in "A0"
           scenario_me_reply [("id", JStr "1"); ("email", JStr "a@b.com")]).
  - reflexivity.
  - discriminate.
  - eexists. split; reflexivity.
  - intros h q base query _ Hurl. cbn. unfold scenario_cms, routes. now rewrite Hurl.
  - repeat split. eexists. split; reflexivity.
Defined.

(** X12.  An empty string stored under both keys: [isAuthenticated] says
    yes (the token is not null), while [getCurrentUser] returns null and
    [refreshToken] throws "No refresh token available", both without
    sending anything (the token is falsy). *)
Theorem empty_tokens_are_present_and_absent (env : Env) (st : State) :
  visible env st ACCESS_KEY = Some "" ->
  visible env st REFRESH_KEY = Some "" ->
  isAuthenticated env st = (Ret true, st) /\
  getCurrentUser env st = (Ret None, st) /\
  refreshToken env st = (Throw (Err (Error "No refresh token available")), st).
Proof.
  intros Ha Hr. repeat split.
  - unfold isAuthenticated. erewrite run_bind_ret by apply getAuthToken_run.
    now rewrite Ha.
  - unfold getCurrentUser. erewrite run_bind_ret by apply getAuthToken_run.
    now rewrite Ha.
  - unfold refreshToken. erewrite run_bind_ret by apply getRefreshToken_run.
    now rewrite Hr.
Qed.

Lemma empty_tokens_are_present_and_absent_witness :
  isAuthenticated (browser offline)
    (holding (<[REFRESH_KEY := ""]> (<[ACCESS_KEY := ""]> ∅)))
  = (Ret true, holding (<[REFRESH_KEY := ""]> (<[ACCESS_KEY := ""]> ∅))).
Proof.
  apply (empty_tokens_are_present_and_absent (browser offline)
           (holding (<[REFRESH_KEY := ""]> (<[ACCESS_KEY := ""]> ∅))));
    vm_compute; reflexivity.
Defined.

(** ** refreshToken *)

Lemma refreshToken_with_token env st tok url :
  visible env st REFRESH_KEY = Some tok -> tok <> "" ->
  directus_url env url ->
  refreshToken env st
  = try_catch
      (response ← fetch env (refresh_request url tok);
       if negb (ok response) then
         let errorData :=
           match fst (Response_json response false) with
           | Ret j => j
           | _ => JObj []
           end in
         errors ← lift (member (Some errorData) "errors");
         let msg := opt_member (opt_first errors) "message" in
         e ← lift (new_Error (if truthy msg then msg
                              else Some (JStr "Failed to refresh token")));
         throw (Err e)
       else
         result ← lift (fst (Response_json response false));
         store_tokens env result;;
         d ← lift (member (Some result) "data");
         lift (member d "access_token"))
      (fun error =>
         clearAuthTokens env;;
         errorMessage ← lift (extractErrorMessage error);
         e ← lift (new_Error errorMessage);
         throw (Err e)) st.
Proof.
  intros Hv Hne (p & Hp & Hd & Hu). unfold refreshToken.
  erewrite run_bind_ret by apply getRefreshToken_run.
  rewrite Hv, (nonempty_Some tok Hne). cbn [negb].
  rewrite Hp, Hd, (nonempty_Some url Hu). reflexivity.
Qed.

(** The [catch] of [refreshToken]: the tokens are cleared, and then
    [extractErrorMessage] throws at [error instanceof ApiError]. *)
Lemma refreshToken_catch env error st1 :
  exists st2,
    (clearAuthTokens env;;
     errorMessage ← lift (extractErrorMessage error);
     e ← lift (new_Error errorMessage);
     throw (Err e)) st1 = (@Throw JsVal TypeError_instanceof, st2) /\
    sent st2 = sent st1 /\
    visible env st2 ACCESS_KEY = None /\ visible env st2 REFRESH_KEY = None.
Proof.
  destruct (clearAuthTokens_run env st1) as (st2 & Hrun & Hs & _).
  exists st2. erewrite run_bind_ret by exact Hrun.
  split; [reflexivity |]. split; [exact Hs |].
  eapply clearAuthTokens_hides. exact Hrun.
Qed.

(** X13.  With a stored refresh token, [NEXT_PUBLIC_DIRECTUS_URL] set and a
    2xx reply whose body holds a non-empty access and refresh token,
    [refreshToken] returns the new access token and stores both.  Its one
    request goes to <base>/auth/refresh with the refresh token in the body
    and no [Authorization] header, and the reply need not declare JSON. *)
Theorem refreshToken_success
    (env : Env) (st : State) (tok url : string) (r : Response)
    (tokens : list (string * Json)) (a n : string) :
  has_window env = true -> storage_access env = true -> storage_room env = true ->
  localStorage st !! REFRESH_KEY = Some tok -> tok <> "" ->
  directus_url env url ->
  network env (sent st) (refresh_request url tok) = Resolve r ->
  ok r = true ->
  (exists p, resp_body r = Some p /\ parsed p = Some (JObj [("data", JObj tokens)])) ->
  assoc "access_token" tokens = Some (JStr a) -> a <> "" ->
  assoc "refresh_token" tokens = Some (JStr n) -> n <> "" ->
  refreshToken env st
  = (Ret (Some (JStr a)),
     {| localStorage := <[REFRESH_KEY := n]> (<[ACCESS_KEY := a]> (localStorage st));
        sent := (sent st ++ [refresh_request url tok])%list;
        console := console st |}) /\
  header "Authorization" (req_headers (refresh_request url tok)) = None.
Proof.
  intros Hw Ha Hr Htok Hne Hurl Hnet Hok (p & Hb & Hp) Hat Hane Hnt Hnne.
  split; [| reflexivity].
  assert (Hv : visible env st REFRESH_KEY = Some tok)
    by (unfold visible; now rewrite Hw, Ha).
  rewrite (refreshToken_with_token env st tok url Hv Hne Hurl).
  apply run_try_ret.
  erewrite run_bind_ret by (unfold fetch; rewrite Hnet; reflexivity).
  rewrite Hok. cbn [negb]. unfold Response_json. rewrite Hb, Hp. cbn [fst].
  erewrite run_bind_ret by reflexivity.
  erewrite run_bind_ret
    by (apply (store_tokens_run env _ tokens a n); assumption).
  assert (Hd : member (Some (JObj [("data", JObj tokens)])) "data"
               = Ret (Some (JObj tokens))) by reflexivity.
  rewrite Hd. erewrite run_bind_ret by reflexivity.
  unfold lift. cbn [member prop]. now rewrite Hat.
Qed.

Lemma refreshToken_success_witness :
  fst (refreshToken (browser (always scenario_login_reply)) signed_in)
  = Ret (Some (JStr "T1")).
Proof.
  rewrite (proj1 (refreshToken_success (browser (always scenario_login_reply)) signed_in
             "R0" "https://cms.example.com/" scenario_login_reply
             [("access_token", JStr "T1"); ("refresh_token", JStr "R1")] "T1" "R1"
             eq_refl eq_refl eq_refl
             ltac:(vm_compute; reflexivity) ltac:(discriminate)
             ltac:(eexists; repeat split; discriminate)
             eq_refl eq_refl
             ltac:(eexists; split; reflexivity)
             eq_refl ltac:(discriminate) eq_refl ltac:(discriminate))).
  reflexivity.
Defined.

(** X14.  [refreshToken] reads [NEXT_PUBLIC_DIRECTUS_URL] only.  When that
    is missing or empty, a stored refresh token leads to a failure without
    any request, whether or not the older [NEXT_PUBLIC_API_BASE_URL], which
    [apiClient] falls back on, is set: both tokens are cleared, and what is
    thrown is the [TypeError] of [error instanceof ApiError], not "Directus
    URL not configured". *)
Theorem refreshToken_needs_directus_url (env : Env) (st : State) (tok : string) :
  visible env st REFRESH_KEY = Some tok -> tok <> "" ->
  (forall p, process env = Some p -> nonempty (NEXT_PUBLIC_DIRECTUS_URL p) = false) ->
  exists st',
    refreshToken env st = (Throw TypeError_instanceof, st') /\
    sent st' = sent st /\
    visible env st' ACCESS_KEY = None /\
    visible env st' REFRESH_KEY = None.
Proof.
  intros Hv Hne Hno.
  destruct (refreshToken_catch env (Err (Error "Directus URL not configured")) st)
    as (st' & Hcatch & Hs & Hclear).
  exists st'. split; [| split; assumption].
  unfold refreshToken. erewrite run_bind_ret by apply getRefreshToken_run.
  rewrite Hv, (nonempty_Some tok Hne). cbn [negb].
  destruct (process env) as [p |] eqn:Hp.
  - specialize (Hno p eq_refl).
    destruct (NEXT_PUBLIC_DIRECTUS_URL p) as [url |].
    + rewrite Hno. cbn [negb].
      erewrite run_try_throw by reflexivity. exact Hcatch.
    + erewrite run_try_throw by reflexivity. exact Hcatch.
  - erewrite run_try_throw by reflexivity. exact Hcatch.
Qed.

Lemma refreshToken_needs_directus_url_witness :
  getApiBaseUrl legacy_only = Ret "https://api.example.com" /\
  exists st',
    refreshToken legacy_only signed_in = (Throw TypeError_instanceof, st') /\
    sent st' = sent signed_in /\
    visible legacy_only st' ACCESS_KEY = None /\
    visible legacy_only st' REFRESH_KEY = None.
Proof.
  split; [reflexivity |].
  apply (refreshToken_needs_directus_url legacy_only signed_in "R0").
  - vm_compute. reflexivity.
  - discriminate.
  - intros p [= <-]. reflexivity.
Defined.

(** X15.  A reply to the refresh request outside 2xx, whether its body is
    missing, does not parse, is an object without [errors], or carries a
    message in the first entry of [errors]: one request was sent, both
    tokens are cleared, and the error built from the reply is replaced in
    the [catch] by the [TypeError] of [error instanceof ApiError]. *)
Theorem refreshToken_rejected
    (env : Env) (st : State) (tok url : string) (r : Response) :
  visible env st REFRESH_KEY = Some tok -> tok <> "" ->
  directus_url env url ->
  network env (sent st) (refresh_request url tok) = Resolve r ->
  ok r = false ->
  (resp_body r = None \/
   exists p, resp_body r = Some p /\
     (parsed p = None \/
      exists fields, parsed p = Some (JObj fields) /\
        (assoc "errors" fields = None \/
         exists entry rest m,
           assoc "errors" fields = Some (JArr (JObj entry :: rest)) /\
           assoc "message" entry = Some (JStr m)))) ->
  exists st',
    refreshToken env st = (Throw TypeError_instanceof, st') /\
    sent st' = (sent st ++ [refresh_request url tok])%list /\
    visible env st' ACCESS_KEY = None /\
    visible env st' REFRESH_KEY = None.
Proof.
  intros Hv Hne Hurl Hnet Hok Hbody.
  rewrite (refreshToken_with_token env st tok url Hv Hne Hurl).
  assert (Hfetch : fetch env (refresh_request url tok) st
                   = (Ret r, sending st (refresh_request url tok)))
    by (unfold fetch; rewrite Hnet; reflexivity).
  assert (Hbuilt : exists m,
             (let errorData :=
                match fst (Response_json r false) with
                | Ret j => j
                | _ => JObj []
                end in
              errors ← member (Some errorData) "errors";
              new_Error (if truthy (opt_member (opt_first errors) "message")
                         then opt_member (opt_first errors) "message"
                         else Some (JStr "Failed to refresh token")))
             = Ret (Error m)).
  { unfold Response_json.
    destruct Hbody as [-> | (p & -> & [-> | (fields & -> & [He | Hmsg])])].
    - now eexists.
    - now eexists.
    - cbn [fst member prop]. rewrite He. now eexists.
    - destruct Hmsg as (entry & rest & m & He & Hm).
      cbn [fst member prop]. rewrite He.
      cbn [mbind Outcome_bind opt_first elem0 head opt_member prop]. rewrite Hm.
      cbn [truthy]. destruct (String.eqb m ""); now eexists. }
  destruct Hbuilt as (m & Hbuilt). cbv zeta in Hbuilt.
  destruct (refreshToken_catch env (Err (Error m)) (sending st (refresh_request url tok)))
    as (st' & Hcatch & Hs & Ha & Hr).
  exists st'. split; [| now repeat split].
  erewrite run_try_throw; [exact Hcatch |].
  erewrite run_bind_ret by exact Hfetch. rewrite Hok. cbn [negb]. cbv zeta.
  unfold lift, throw, mbind at 1 2, M_bind.
  destruct (member _ "errors") as [errors | t |]; try discriminate.
  cbn [mbind Outcome_bind] in Hbuilt. rewrite Hbuilt. reflexivity.
Qed.

Lemma refreshToken_rejected_witness :
  exists st',
    refreshToken (browser (always token_expired)) signed_in
    = (Throw TypeError_instanceof, st') /\
    sent st' = [refresh_request "https://cms.example.com/" "R0"] /\
    visible (browser (always token_expired)) st' ACCESS_KEY = None /\
    visible (browser (always token_expired)) st' REFRESH_KEY = None.
Proof.
  apply (refreshToken_rejected (browser (always token_expired)) signed_in
           "R0" "https://cms.example.com/" token_expired).
  - vm_compute. reflexivity.
  - discriminate.
  - eexists. repeat split. discriminate.
  - reflexivity.
  - reflexivity.
  - right. eexists. split; [reflexivity |]. right. eexists. split; [reflexivity |].
    right. eexists. eexists. eexists. split; reflexivity.
Defined.

(** ** login and register *)

(** [apiClient] against a server that answers: the request it sent. *)
Lemma apiClient_answered_request env endpoint options st r :
  reaches env endpoint ->
  params options = None ->
  answers env (default "GET" (method options)) endpoint r ->
  exists q,
    apiClient env endpoint options st = (handleResponse r, sending st q) /\
    req_method q = default "GET" (method options) /\
    (exists base, getApiBaseUrl env = Ret base /\ req_url q = URL_new endpoint base []).
Proof.
  intros (base & Hbase & Hacc) Hparams Hnet.
  pose proof (apiClient_run env endpoint options st) as Hrun.
  unfold buildUrl in Hrun. rewrite Hbase in Hrun. cbn [mbind Outcome_bind] in Hrun.
  rewrite Hacc, Hparams in Hrun. destruct Hrun as (hs & _ & Hrun). cbv zeta in Hrun.
  erewrite Hnet in Hrun by reflexivity.
  eexists. split; [exact Hrun |]. split; [reflexivity | now exists base].
Qed.

(** The [catch] of [login] and [register] changes nothing in the state and
    never returns. *)
Lemma rethrow_keeps_state {A : Type} (error : Thrown) (st : State) :
  exists o,
    (errorMessage ← lift (extractErrorMessage error);
     e ← lift (new_Error errorMessage);
     @throw A (Err e)) st = (o, st) /\
    forall a, o <> Ret a.
Proof.
  exists (Throw TypeError_instanceof). split; [reflexivity | discriminate].
Qed.

(** What it throws is the [TypeError] of [extractErrorMessage]. *)
Lemma rethrow_run {A : Type} (error : Thrown) (st : State) :
  (errorMessage ← lift (extractErrorMessage error);
   e ← lift (new_Error errorMessage);
   @throw A (Err e)) st = (Throw TypeError_instanceof, st).
Proof. reflexivity. Qed.

(** X16.  Whatever goes wrong inside [login] or [register], what the caller
    catches is the [TypeError] of [error instanceof ApiError]: the message
    of the CMS, of the status or of the network never reaches the caller. *)
Theorem login_and_register_throw_the_instanceof_error
    (env : Env) (creds : LoginCredentials) (rc : RegisterCredentials)
    (st st' : State) (t : Thrown) :
  login env creds st = (Throw t, st') \/ register env rc st = (Throw t, st') ->
  t = TypeError_instanceof.
Proof.
  intros [Hrun | Hrun].
  - unfold login in Hrun.
    apply try_catch_throws_from_handler in Hrun as (t0 & st0 & _ & Hh).
    rewrite rethrow_run in Hh. now injection Hh as <- _.
  - unfold register in Hrun.
    apply try_catch_throws_from_handler in Hrun as (t0 & st0 & _ & Hh).
    rewrite rethrow_run in Hh. now injection Hh as <- _.
Qed.

Lemma login_and_register_throw_the_instanceof_error_witness :
  match fst (login (browser (routes invalid_credentials invalid_credentials))
                   credentials empty_store) with
  | Throw t => t
  | _ => NonErr None
  end = TypeError_instanceof.
Proof.
  apply (login_and_register_throw_the_instanceof_error
           (browser (routes invalid_credentials invalid_credentials)) credentials
           newcomer empty_store
           (snd (login (browser (routes invalid_credentials invalid_credentials))
                       credentials empty_store))).
  left. vm_compute. reflexivity.
Defined.

(** X17.  When the network is down, [login] sends its one request and
    throws; the store is as it was.  [apiClient] threw "Network error:
    <reason>", but the [catch] of [login] replaces it with the [TypeError]
    of [error instanceof ApiError]. *)
Theorem login_offline
    (env : Env) (creds : LoginCredentials) (st : State) (e : JsError) :
  reaches env "/auth/login" ->
  unreachable env e ->
  status e = None ->
  exists q, login env creds st = (Throw TypeError_instanceof, sending st q).
Proof.
  intros (base & Hbase & Hacc) Hdown Hstatus.
  pose proof (apiClient_run env "/auth/login"
                {| method := Some "POST"; params := None;
                   body := Some (JObj [("email", JStr (email creds));
                                       ("password", JStr (password creds))]);
                   headers := [] |} st) as Hrun.
  unfold buildUrl in Hrun. rewrite Hbase in Hrun. cbn [mbind Outcome_bind params] in Hrun.
  rewrite Hacc in Hrun. destruct Hrun as (hs & _ & Hrun). cbv zeta in Hrun.
  rewrite Hdown, Hstatus in Hrun.
  eexists. rewrite (login_post_throws env creds st _ _ Hrun). apply rethrow_run.
Qed.

Lemma login_offline_witness :
  exists q,
    login (browser offline) credentials empty_store
    = (Throw TypeError_instanceof, sending empty_store q).
Proof.
  apply (login_offline (browser offline) credentials empty_store (Error "Failed to fetch")).
  - eexists. split; reflexivity.
  - intros h q. reflexivity.
  - reflexivity.
Defined.

(** X18.  [login] does not undo what it stored.  When the login endpoint
    hands out tokens and [/users/me] then answers outside 2xx, [login] does
    not return a user, yet both new tokens are in the store. *)
Theorem login_keeps_tokens_when_profile_fails
    (env : Env) (creds : LoginCredentials) (st : State)
    (r1 r2 : Response) (tokens : list (string * Json)) (a n : string) :
  has_window env = true -> storage_access env = true -> storage_room env = true ->
  reaches env "/auth/login" -> reaches env "/users/me" ->
  answers env "POST" "/auth/login" r1 ->
  answers env "GET" "/users/me" r2 ->
  json_reply r1 (JObj [("data", JObj tokens)]) ->
  assoc "access_token" tokens = Some (JStr a) -> a <> "" ->
  assoc "refresh_token" tokens = Some (JStr n) -> n <> "" ->
  ok r2 = false ->
  let run := login env creds st in
  (forall u, fst run <> Ret u) /\
  localStorage (snd run) !! ACCESS_KEY = Some a /\
  localStorage (snd run) !! REFRESH_KEY = Some n /\
  fst (isAuthenticated env (snd run)) = Ret true.
Proof.
  intros Hw Ha Hr Hreach1 Hreach2 Hnet1 Hnet2 Hj1 Hat Hane Hnt Hnne Hok2. cbv zeta.
  destruct (apiClient_answered env "/auth/login"
              {| method := Some "POST"; params := None;
                 body := Some (JObj [("email", JStr (email creds));
                                     ("password", JStr (password creds))]);
                 headers := [] |} st r1 Hreach1 eq_refl Hnet1) as (q1 & Hpost).
  rewrite (json_reply_handled _ _ Hj1) in Hpost.
  pose proof (store_tokens_run env (sending st q1) tokens a n Hw Ha Hr Hat Hane Hnt Hnne)
    as Hstore.
  set (st1 := {| localStorage := <[REFRESH_KEY := n]>
                                   (<[ACCESS_KEY := a]> (localStorage (sending st q1)));
                 sent := sent (sending st q1); console := console (sending st q1) |}) in *.
  destruct (apiClient_answered env "/users/me"
              {| method := Some "GET"; params := None; body := None; headers := [] |}
              st1 r2 Hreach2 eq_refl Hnet2) as (q2 & Hget).
  assert (Hthrow : exists t, handleResponse r2 = Throw t)
    by (destruct (handleResponse_error_cases r2 Hok2) as [(d & ->) | ->]; eauto).
  destruct Hthrow as (t & Hthrow). rewrite Hthrow in Hget.
  destruct (@rethrow_keeps_state AuthUser t (sending st1 q2)) as (o & Hcatch & Hnot).
  assert (Hrun : login env creds st = (o, sending st1 q2)).
  { unfold login. erewrite run_try_throw; [exact Hcatch |].
    erewrite run_bind_ret by exact Hpost.
    erewrite run_bind_ret by exact Hstore.
    now apply run_bind_throw. }
  rewrite Hrun. cbn [fst snd]. split; [exact Hnot |].
  unfold isAuthenticated. erewrite run_bind_ret by apply getAuthToken_run.
  unfold visible. rewrite Hw, Ha. cbn [andb sending st1 localStorage fst].
  rewrite lookup_insert_eq.
  rewrite lookup_insert_ne by (symmetry; apply keys_differ).
  rewrite lookup_insert_eq. now repeat split.
Qed.

Lemma login_keeps_tokens_when_profile_fails_witness :
  let run := login (browser (routes scenario_login_reply bad_gateway))
                   credentials empty_store in
  (forall u, fst run <> Ret u) /\
  localStorage (snd run) !! ACCESS_KEY = Some "T1" /\
  localStorage (snd run) !! REFRESH_KEY = Some "R1" /\
  fst (isAuthenticated (browser (routes scenario_login_reply bad_gateway)) (snd run))
  = Ret true.
Proof.
  apply (login_keeps_tokens_when_profile_fails
           (browser (routes scenario_login_reply bad_gateway)) credentials empty_store
           scenario_login_reply bad_gateway
           [("access_token", JStr "T1"); ("refresh_token", JStr "R1")] "T1" "R1").
  - reflexivity.
  - reflexivity.
  - reflexivity.
  - eexists. split; reflexivity.
  - eexists. split; reflexivity.
  - intros h q base query _ Hurl. cbn. unfold routes. now rewrite Hurl.
  - intros h q base query _ Hurl. cbn. unfold routes. now rewrite Hurl.
  - repeat split. eexists. split; reflexivity.
  - reflexivity.
  - discriminate.
  - reflexivity.
  - discriminate.
  - reflexivity.
Defined.

(** X19.  A successful [register]: the user returned is built from the reply
    to POST [/users], the tokens of the login that follows are stored, and
    exactly two requests were sent, both POST, to [/users] and then to
    [/auth/login]; [/users/me] is not fetched. *)
Theorem register_success
    (env : Env) (rc : RegisterCredentials) (st : State)
    (r0 r1 : Response) (profile tokens : list (string * Json)) (a n : string) :
  has_window env = true -> storage_access env = true -> storage_room env = true ->
  reaches env "/users" -> reaches env "/auth/login" ->
  answers env "POST" "/users" r0 ->
  answers env "POST" "/auth/login" r1 ->
  json_reply r0 (JObj [("data", JObj profile)]) ->
  json_reply r1 (JObj [("data", JObj tokens)]) ->
  assoc "access_token" tokens = Some (JStr a) -> a <> "" ->
  assoc "refresh_token" tokens = Some (JStr n) -> n <> "" ->
  exists q1 q2 base,
    register env rc st
    = (Ret (created_user profile),
       {| localStorage := <[REFRESH_KEY := n]> (<[ACCESS_KEY := a]> (localStorage st));
          sent := (sent st ++ [q1; q2])%list;
          console := console st |}) /\
    req_method q1 = "POST" /\ req_url q1 = URL_new "/users" base [] /\
    req_method q2 = "POST" /\ req_url q2 = URL_new "/auth/login" base [].
Proof.
  intros Hw Ha Hr Hreach0 Hreach1 Hnet0 Hnet1 Hj0 Hj1 Hat Hane Hnt Hnne.
  destruct (apiClient_answered_request env "/users"
              {| method := Some "POST"; params := None;
                 body := Some (JObj ([("email", JStr (reg_email rc));
                                      ("password", JStr (reg_password rc))]
                                     ++ optional_field "first_name" (reg_first_name rc)
                                     ++ optional_field "last_name" (reg_last_name rc))%list);
                 headers := [] |} st r0 Hreach0 eq_refl Hnet0)
    as (q1 & Hcreate & Hm1 & base1 & Hb1 & Hu1).
  rewrite (json_reply_handled _ _ Hj0) in Hcreate.
  destruct (apiClient_answered_request env "/auth/login"
              {| method := Some "POST"; params := None;
                 body := Some (JObj [("email", JStr (reg_email rc));
                                     ("password", JStr (reg_password rc))]);
                 headers := [] |} (sending st q1) r1 Hreach1 eq_refl Hnet1)
    as (q2 & Hlogin & Hm2 & base2 & Hb2 & Hu2).
  rewrite (json_reply_handled _ _ Hj1) in Hlogin.
  pose proof (store_tokens_run env (sending (sending st q1) q2) tokens a n
                Hw Ha Hr Hat Hane Hnt Hnne) as Hstore.
  assert (Hbase : base2 = base1) by congruence.
  subst base2.
  exists q1, q2, base1. split; [| now repeat split].
  unfold register. apply run_try_ret.
  erewrite run_bind_ret by exact Hcreate.
  erewrite run_bind_ret by exact Hlogin.
  erewrite run_bind_ret by exact Hstore.
  unfold lift. rewrite user_of_data. unfold created_user.
  cbn [sending localStorage sent console]. now rewrite <- app_assoc.
Qed.

Lemma register_success_witness :
  exists q1 q2 base,
    register (browser (signup_routes scenario_me_reply scenario_login_reply))
             newcomer empty_store
    = (Ret (created_user [("id", JStr "1"); ("email", JStr "a@b.com")]),
       {| localStorage := <[REFRESH_KEY := "R1"]> (<[ACCESS_KEY := "T1"]> ∅);
          sent := [q1; q2]; console := [] |}) /\
    req_method q1 = "POST" /\ req_url q1 = URL_new "/users" base [] /\
    req_method q2 = "POST" /\ req_url q2 = URL_new "/auth/login" base [].
Proof.
  apply (register_success
           (browser (signup_routes scenario_me_reply scenario_login_reply))
           newcomer empty_store scenario_me_reply scenario_login_reply
           [("id", JStr "1"); ("email", JStr "a@b.com")]
           [("access_token", JStr "T1"); ("refresh_token", JStr "R1")] "T1" "R1").
  - reflexivity.
  - reflexivity.
  - reflexivity.
  - eexists. split; reflexivity.
  - eexists. split; reflexivity.
  - intros h q base query _ Hurl. cbn. unfold signup_routes. now rewrite Hurl.
  - intros h q base query _ Hurl. cbn. unfold signup_routes. now rewrite Hurl.
  - repeat split. eexists. split; reflexivity.
  - repeat split. eexists. split; reflexivity.
  - reflexivity.
  - discriminate.
  - reflexivity.
  - discriminate.
Defined.

(** X20.  When creating the user is answered outside 2xx, [register]
    throws after that one request to [/users]: the login request is never
    sent and the store is as it was.  What it throws is the [TypeError] of
    [error instanceof ApiError], not the message of the CMS. *)
Theorem register_creation_refused
    (env : Env) (rc : RegisterCredentials) (st : State) (r0 : Response) :
  reaches env "/users" ->
  answers env "POST" "/users" r0 ->
  ok r0 = false ->
  exists q,
    register env rc st = (Throw TypeError_instanceof, sending st q) /\
    exists base, req_url q = URL_new "/users" base [].
Proof.
  intros Hreach Hnet Hok.
  destruct (apiClient_answered_request env "/users"
              {| method := Some "POST"; params := None;
                 body := Some (JObj ([("email", JStr (reg_email rc));
                                      ("password", JStr (reg_password rc))]
                                     ++ optional_field "first_name" (reg_first_name rc)
                                     ++ optional_field "last_name" (reg_last_name rc))%list);
                 headers := [] |} st r0 Hreach eq_refl Hnet)
    as (q & Hcreate & _ & base & Hbase & Hu).
  assert (Hthrow : exists t, handleResponse r0 = Throw t)
    by (destruct (handleResponse_error_cases r0 Hok) as [(d & ->) | ->]; eauto).
  destruct Hthrow as (t & Hthrow). rewrite Hthrow in Hcreate.
  exists q. split; [| now exists base].
  unfold register.
  erewrite run_try_throw by (apply run_bind_throw; exact Hcreate).
  apply rethrow_run.
Qed.

Lemma register_creation_refused_witness :
  exists q,
    register (browser (signup_routes email_taken scenario_login_reply))
             newcomer signed_in
    = (Throw TypeError_instanceof, sending signed_in q) /\
    exists base, req_url q = URL_new "/users" base [].
Proof.
  apply (register_creation_refused
           (browser (signup_routes email_taken scenario_login_reply))
           newcomer signed_in email_taken).
  - eexists. split; reflexivity.
  - intros h q base query _ Hurl. cbn. unfold signup_routes. now rewrite Hurl.
  - reflexivity.
Defined.

(** ** The session context *)

Lemma isAuthenticated_run env st :
  isAuthenticated env st
  = (Ret (match visible env st ACCESS_KEY with Some _ => true | None => false end), st).
Proof.
  unfold isAuthenticated. erewrite run_bind_ret by apply getAuthToken_run. reflexivity.
Qed.

Lemma call_run {A : Type} (m : M A) (t : Tab) o st :
  m (store t) = (o, st) -> call m t = (o, {| store := st; session := session t |}).
Proof. intros H. unfold call. now rewrite H. Qed.

Lemma checkAuth_with_token env st s tok u st' :
  visible env st ACCESS_KEY = Some tok ->
  getCurrentUser env st = (Ret u, st') ->
  AuthContext.checkAuth env {| store := st; session := s |}
  = (Ret tt, {| store := st';
                session := {| user := u; loading := false; pushed := pushed s |} |}).
Proof.
  intros Hv Hget. pose proof (isAuthenticated_run env st) as Hauth. rewrite Hv in Hauth.
  unfold AuthContext.checkAuth, try_catch_finally.
  unfold mbind at 1. unfold U_bind at 1.
  rewrite (call_run _ {| store := st; session := s |} _ _ Hauth).
  cbn [store session]. unfold mbind at 1. unfold U_bind at 1.
  rewrite (call_run _ {| store := st; session := s |} _ _ Hget). reflexivity.
Qed.

Lemma checkAuth_with_token_throw env st s tok e st' :
  visible env st ACCESS_KEY = Some tok ->
  getCurrentUser env st = (Throw e, st') ->
  AuthContext.checkAuth env {| store := st; session := s |}
  = (Ret tt, {| store := logging st' "Error checking authentication:";
                session := {| user := None; loading := false; pushed := pushed s |} |}).
Proof.
  intros Hv Hget. pose proof (isAuthenticated_run env st) as Hauth. rewrite Hv in Hauth.
  unfold AuthContext.checkAuth, try_catch_finally.
  unfold mbind at 1. unfold U_bind at 1.
  rewrite (call_run _ {| store := st; session := s |} _ _ Hauth).
  cbn [store session]. unfold mbind at 1. unfold U_bind at 1.
  rewrite (call_run _ {| store := st; session := s |} _ _ Hget). reflexivity.
Qed.

Lemma checkAuth_without_token env st s :
  visible env st ACCESS_KEY = None ->
  AuthContext.checkAuth env {| store := st; session := s |}
  = (Ret tt, {| store := st;
                session := {| user := user s; loading := false; pushed := pushed s |} |}).
Proof.
  intros Hv. pose proof (isAuthenticated_run env st) as Hauth. rewrite Hv in Hauth.
  unfold AuthContext.checkAuth, try_catch_finally.
  unfold mbind at 1. unfold U_bind at 1.
  rewrite (call_run _ {| store := st; session := s |} _ _ Hauth). reflexivity.
Qed.

(** X21.  The check run on mount never throws and always ends with
    [loading] false, without navigating.  With no access token to read it
    sends nothing and leaves [user] alone.  With one, [user] becomes what
    [getCurrentUser] returned; when [getCurrentUser] throws, the check logs
    "Error checking authentication:" and sets [user] to null. *)
Theorem checkAuth_settles (env : Env) (t : Tab) :
  match visible env (store t) ACCESS_KEY with
  | Some _ =>
      match getCurrentUser env (store t) with
      | (Ret u, st') =>
          AuthContext.checkAuth env t
          = (Ret tt, {| store := st';
                        session := {| user := u; loading := false;
                                      pushed := pushed (session t) |} |})
      | (Throw _, st') =>
          AuthContext.checkAuth env t
          = (Ret tt, {| store := logging st' "Error checking authentication:";
                        session := {| user := None; loading := false;
                                      pushed := pushed (session t) |} |})
      | (Unmodelled, _) => False
      end
  | None =>
      AuthContext.checkAuth env t
      = (Ret tt, {| store := store t;
                    session := {| user := user (session t); loading := false;
                                  pushed := pushed (session t) |} |})
  end.
Proof.
  destruct t as [st s]. cbn [store session].
  destruct (visible env st ACCESS_KEY) as [tok |] eqn:Hv.
  - destruct (getCurrentUser_outcome env st) as (o & st' & Hget & Ho & _).
    rewrite Hget. destruct Ho as [(u & ->) | ->].
    + exact (checkAuth_with_token env st s tok u st' Hv Hget).
    + exact (checkAuth_with_token_throw env st s tok _ st' Hv Hget).
  - exact (checkAuth_without_token env st s Hv).
Qed.

(** X22.  [login] and [register] of the context, against the auth service:
    when the service returns a user, [user] is set to it, [loading] ends
    false and "/" is pushed; when it throws, the same error reaches the
    caller, [loading] ends false, [user] is left as it was and nothing is
    pushed. *)
Theorem context_login_and_register
    (env : Env) (creds : LoginCredentials) (rc : RegisterCredentials) (t : Tab) :
  match login env creds (store t) with
  | (Ret u, st') =>
      AuthContext.login env creds t
      = (Ret tt, {| store := st';
                    session := {| user := Some u; loading := false;
                                  pushed := (pushed (session t) ++ ["/"])%list |} |})
  | (Throw e, st') =>
      AuthContext.login env creds t
      = (Throw e, {| store := st';
                     session := {| user := user (session t); loading := false;
                                   pushed := pushed (session t) |} |})
  | (Unmodelled, _) => True
  end /\
  match register env rc (store t) with
  | (Ret u, st') =>
      AuthContext.register env rc t
      = (Ret tt, {| store := st';
                    session := {| user := Some u; loading := false;
                                  pushed := (pushed (session t) ++ ["/"])%list |} |})
  | (Throw e, st') =>
      AuthContext.register env rc t
      = (Throw e, {| store := st';
                     session := {| user := user (session t); loading := false;
                                   pushed := pushed (session t) |} |})
  | (Unmodelled, _) => True
  end.
Proof.
  split.
  - unfold AuthContext.login, AuthContext.authLogin, try_catch_finally, call,
      mbind, U_bind, setLoading, setUser, router_push, rethrow.
    cbn [store session user loading pushed].
    destruct (login env creds (store t)) as [[u | e |] st']; try exact I; reflexivity.
  - unfold AuthContext.register, AuthContext.authRegister, try_catch_finally, call,
      mbind, U_bind, setLoading, setUser, router_push, rethrow.
    cbn [store session user loading pushed].
    destruct (register env rc (store t)) as [[u | e |] st']; try exact I; reflexivity.
Qed.

(** X23.  [logout] of the context never fails: afterwards no token can be
    read, [user] is null, "/login" is pushed, [loading] is as it was and no
    request was sent. *)
Theorem context_logout (env : Env) (t : Tab) :
  exists st',
    AuthContext.logout env t
    = (Ret tt, {| store := st';
                  session := {| user := None; loading := loading (session t);
                                pushed := (pushed (session t) ++ ["/login"])%list |} |}) /\
    visible env st' ACCESS_KEY = None /\
    visible env st' REFRESH_KEY = None /\
    sent st' = sent (store t).
Proof.
  destruct t as [st s]. cbn [store session].
  destruct (clearAuthTokens_run env st) as (st' & Hrun & Hsent & _).
  destruct (clearAuthTokens_hides _ _ _ _ Hrun) as [Ha Hr].
  exists st'. split; [| now repeat split].
  unfold AuthContext.logout, AuthContext.authLogout, logout.
  unfold mbind at 1. unfold U_bind at 1.
  rewrite (call_run _ {| store := st; session := s |} _ _ Hrun). reflexivity.
Qed.

(** X24.  [refreshUser] never throws and never touches [loading] or the
    router.  [user] becomes what [getCurrentUser] returned; when
    [getCurrentUser] throws, [refreshUser] logs "Error refreshing user:" and
    sets [user] to null. *)
Theorem context_refreshUser (env : Env) (t : Tab) :
  match getCurrentUser env (store t) with
  | (Ret u, st') =>
      AuthContext.refreshUser env t
      = (Ret tt, {| store := st';
                    session := {| user := u; loading := loading (session t);
                                  pushed := pushed (session t) |} |})
  | (Throw _, st') =>
      AuthContext.refreshUser env t
      = (Ret tt, {| store := logging st' "Error refreshing user:";
                    session := {| user := None; loading := loading (session t);
                                  pushed := pushed (session t) |} |})
  | (Unmodelled, _) => False
  end.
Proof.
  destruct t as [st s]. cbn [store session].
  destruct (getCurrentUser_outcome env st) as (o & st' & Hget & Ho & _).
  rewrite Hget.
  destruct Ho as [(u & ->) | ->];
    unfold AuthContext.refreshUser, try_catch_finally;
    unfold mbind at 1; unfold U_bind at 1;
    rewrite (call_run _ {| store := st; session := s |} _ _ Hget); reflexivity.
Qed.

(** ** AuthGuard behind the session context *)

(** X25.  While the session is mounting the guard shows the loading screen
    and does not redirect.  Once [checkAuth] has run, from any store, it
    never shows the loading screen again: it renders its children without
    redirecting when a user was found, and renders nothing and redirects
    when none was. *)
Theorem AuthGuard_after_mount (env : Env) (st : State) (redirectTo : string) :
  let s' := session (snd (AuthContext.checkAuth env {| store := st; session := mounting |})) in
  AuthGuard mounting = LoadingScreen /\
  AuthGuard_effect redirectTo mounting = None /\
  match user s' with
  | Some _ => AuthGuard s' = Children /\ AuthGuard_effect redirectTo s' = None
  | None => AuthGuard s' = Nothing /\ AuthGuard_effect redirectTo s' = Some redirectTo
  end.
Proof.
  cbv zeta. split; [reflexivity |]. split; [reflexivity |].
  destruct (visible env st ACCESS_KEY) as [tok |] eqn:Hv.
  - destruct (getCurrentUser_outcome env st) as (o & st' & Hget & Ho & _).
    destruct Ho as [(u & ->) | ->].
    + rewrite (checkAuth_with_token env st mounting tok u st' Hv Hget).
      cbn [snd session user]. destruct u; now split.
    + rewrite (checkAuth_with_token_throw env st mounting tok _ st' Hv Hget).
      cbn. now split.
  - rewrite (checkAuth_without_token env st mounting Hv). cbn. now split.
Qed.

(** X26.  A stale session, end to end: the tab mounts with a stored token
    and [/users/me] answers outside 2xx (401, say).  After the check [user]
    is null, [loading] is false, and the guard renders nothing and
    redirects; but the store still holds what it held, so the token can
    still be read and [isAuthenticated] of auth.ts is still true: the error
    was only logged. *)
Theorem stale_token_is_redirected_but_kept
    (env : Env) (st : State) (tok redirectTo : string) (r : Response) :
  visible env st ACCESS_KEY = Some tok -> tok <> "" ->
  reaches env "/users/me" ->
  answers env "GET" "/users/me" r ->
  ok r = false ->
  let t' := snd (AuthContext.checkAuth env {| store := st; session := mounting |}) in
  user (session t') = None /\
  loading (session t') = false /\
  AuthGuard (session t') = Nothing /\
  AuthGuard_effect redirectTo (session t') = Some redirectTo /\
  localStorage (store t') = localStorage st /\
  visible env (store t') ACCESS_KEY = Some tok /\
  fst (isAuthenticated env (store t')) = Ret true /\
  console (store t') = (console st ++ ["Error checking authentication:"])%list.
Proof.
  intros Hv Hne Hreach Hnet Hok. cbv zeta.
  destruct (apiClient_answered env "/users/me"
              {| method := Some "GET"; params := None; body := None; headers := [] |}
              st r Hreach eq_refl Hnet) as (q & Hrun).
  assert (Hget : getCurrentUser env st = (Throw TypeError_instanceof, sending st q)).
  { rewrite (getCurrentUser_with_token env st tok Hv Hne).
    destruct (handleResponse_error_cases r Hok) as [(d & Hthrow) | Hthrow];
      rewrite Hthrow in Hrun;
      erewrite run_try_throw by (apply run_bind_throw; exact Hrun);
      apply getCurrentUser_catch. }
  rewrite (checkAuth_with_token_throw env st mounting tok _ _ Hv Hget).
  cbn [snd store session user loading].
  assert (Hv' : visible env (logging (sending st q) "Error checking authentication:")
                  ACCESS_KEY = Some tok) by exact Hv.
  rewrite isAuthenticated_run, Hv'. now repeat split.
Qed.

Lemma stale_token_is_redirected_but_kept_witness :
  let env := browser (always token_expired) in
  let t' := snd (AuthContext.checkAuth env {| store := signed_in; session := mounting |}) in
  user (session t') = None /\
  loading (session t') = false /\
  AuthGuard (session t') = Nothing /\
  AuthGuard_effect "/login" (session t') = Some "/login" /\
  localStorage (store t') = localStorage signed_in /\
  visible env (store t') ACCESS_KEY = Some "A0" /\
  fst (isAuthenticated env (store t')) = Ret true /\
  console (store t') = (console signed_in ++ ["Error checking authentication:"])%list.
Proof.
  apply (stale_token_is_redirected_but_kept (browser (always token_expired)) signed_in
           "A0" "/login" token_expired).
  - reflexivity.
  - discriminate.
  - eexists. split; reflexivity.
  - intros h q base query _ _. reflexivity.
  - reflexivity.
Defined.

(** ** login with a reply that carries no tokens *)

Lemma store_tokens_without_data env fields st :
  assoc "data" fields = None ->
  store_tokens env (JObj fields) st = (Ret tt, st).
Proof.
  intros Hd. unfold store_tokens. cbn [member prop]. rewrite Hd.
  erewrite run_bind_ret by reflexivity. cbn [opt_member].
  erewrite run_bind_ret by reflexivity.
  erewrite run_bind_ret by reflexivity. reflexivity.
Qed.

(** X27.  [login] does not require tokens.  When the login endpoint
    answers 2xx with an object that has no [data], nothing is stored, yet
    [login] goes on to [/users/me] and returns the user it finds there: a
    user is returned while the store is as it was. *)
Theorem login_without_tokens_returns_user
    (env : Env) (creds : LoginCredentials) (st : State)
    (r1 r2 : Response) (fields profile : list (string * Json)) :
  reaches env "/auth/login" -> reaches env "/users/me" ->
  answers env "POST" "/auth/login" r1 ->
  answers env "GET" "/users/me" r2 ->
  json_reply r1 (JObj fields) ->
  assoc "data" fields = None ->
  json_reply r2 (JObj [("data", JObj profile)]) ->
  exists q1 q2,
    login env creds st = (Ret (created_user profile), sending (sending st q1) q2).
Proof.
  intros Hreach1 Hreach2 Hnet1 Hnet2 Hj1 Hd Hj2.
  destruct (apiClient_answered env "/auth/login"
              {| method := Some "POST"; params := None;
                 body := Some (JObj [("email", JStr (email creds));
                                     ("password", JStr (password creds))]);
                 headers := [] |} st r1 Hreach1 eq_refl Hnet1) as (q1 & Hpost).
  rewrite (json_reply_handled _ _ Hj1) in Hpost.
  destruct (apiClient_answered env "/users/me"
              {| method := Some "GET"; params := None; body := None; headers := [] |}
              (sending st q1) r2 Hreach2 eq_refl Hnet2) as (q2 & Hget).
  rewrite (json_reply_handled _ _ Hj2) in Hget.
  exists q1, q2. unfold login. apply run_try_ret.
  erewrite run_bind_ret by exact Hpost.
  erewrite run_bind_ret by (apply store_tokens_without_data; exact Hd).
  erewrite run_bind_ret by exact Hget.
  unfold lift. now rewrite user_of_data.
Qed.

Lemma login_without_tokens_returns_user_witness :
  exists q1 q2,
    login (browser (routes (json_response 200 "OK" (JObj [])) scenario_me_reply))
          credentials empty_store
    = (Ret (created_user [("id", JStr "1"); ("email", JStr "a@b.com")]),
       sending (sending empty_store q1) q2).
Proof.
  apply (login_without_tokens_returns_user
           (browser (routes (json_response 200 "OK" (JObj [])) scenario_me_reply))
           credentials empty_store
           (json_response 200 "OK" (JObj [])) scenario_me_reply
           [] [("id", JStr "1"); ("email", JStr "a@b.com")]).
  - eexists. split; reflexivity.
  - eexists. split; reflexivity.
  - intros h q base query _ Hurl. cbn. unfold routes. now rewrite Hurl.
  - intros h q base query _ Hurl. cbn. unfold routes. now rewrite Hurl.
  - repeat split. eexists. split; reflexivity.
  - reflexivity.
  - repeat split. eexists. split; reflexivity.
Defined.

(** ** The earlier token holder *)

(** X28.  The token holder of the earlier client works on the server only:
    with no [window] and a [process], the token set is the token read back;
    in a browser [setAuthToken] changes nothing and [getAuthToken] is
    always undefined, whatever was set. *)
Theorem legacy_token_holder (rt : Legacy.Runtime) (token : string) (held : option string) :
  Legacy.getAuthToken rt (Legacy.setAuthToken rt token held)
  = (if negb (Legacy.window_defined rt) && Legacy.process_defined rt
     then Some token else None) /\
  (if Legacy.window_defined rt
   then Legacy.setAuthToken rt token held = held /\
        Legacy.getAuthToken rt held = None
   else True).
Proof.
  unfold Legacy.getAuthToken, Legacy.setAuthToken.
  destruct (Legacy.window_defined rt), (Legacy.process_defined rt); cbn; auto.
Qed.

(** ** Query parameters and caller headers *)




Lemma header_app k hs1 hs2 :
  header k (hs1 ++ hs2)%list
  = match header k hs1 with Some v => Some v | None => header k hs2 end.
Proof.
  induction hs1 as [| [k' v'] hs1 IH]; cbn; [reflexivity |].
  destruct (String.eqb k k'); [reflexivity | exact IH].
Qed.

(** X30.  Headers passed by the caller win over the defaults of the same
    name, the last one given winning among them, and every other default
    header is kept. *)
Theorem spread_overrides (k : string) (defaults custom : list (string * string)) :
  header k (spread defaults custom)
  = match header k (rev custom) with
    | Some v => Some v
    | None => header k defaults
    end.
Proof.
  unfold spread. revert defaults.
  induction custom as [| [k1 v1] custom IH]; intros defaults; [reflexivity |].
  cbn [fold_left rev fst snd]. rewrite IH, header_app. cbn [header].
  destruct (header k (rev custom)); [reflexivity |].
  destruct (String.eqb_spec k k1) as [-> | Hne].
  - apply header_set_header_eq.
  - apply header_set_header_ne. congruence.
Qed.
